(** * submit50: the git command runner (src/submit50/git.py)

    A shallow embedding of [git.py].  The module shells out to the [git]
    executable; everything it does is to build an argument vector, run it,
    and turn a failure into a [RuntimeError] carrying a fixed message.

    - Python [str] is a list of code points, [bytes] a list of bytes.
    - The operating system (process execution, environment, current
      directory, temporary directories) is an interface, [Host]; every
      theorem holds for every implementation of it.
    - Python code runs in a state-and-exception monad [M]; the state holds
      the receiver object ([self]), the host and the list of argument
      vectors executed so far.
    - [os.path] is [posixpath]; [logging.debug] has no effect on what the
      functions return or raise and is left out. *)

From Stdlib Require Import NArith ZArith List String Ascii Strings.Byte Lia.
From stdpp Require Import base list sorting.

Open Scope N_scope.
Open Scope list_scope.

(** ** Python values *)

Definition str := list N.
Definition bytes := list byte.

(** A string literal of the source. *)
Definition lit (s : string) : str := map N_of_ascii (list_ascii_of_string s).
Notation "$ s" := (lit s) (at level 1, s at level 0, format "$ s").

(** A bytes literal. *)
Definition blit (s : string) : bytes := list_byte_of_string s.

Definition LF : N := 10.
Definition DQUOTE : N := 34.

(** [str.isspace] on one code point: the characters [str.split] and
    [str.rstrip] treat as whitespace. *)
Definition isspace (c : N) : bool :=
  ((9 <=? c) && (c <=? 13)) || ((28 <=? c) && (c <=? 32))
  || (c =? 133) || (c =? 160) || (c =? 5760)
  || ((8192 <=? c) && (c <=? 8202))
  || (c =? 8232) || (c =? 8233) || (c =? 8239) || (c =? 8287) || (c =? 12288).

(** [s.split()]: the maximal runs of non-whitespace, in order; [tok] is the
    run being read. *)
Fixpoint split_from (tok s : str) : list str :=
  match s with
  | [] => match tok with [] => [] | _ => [tok] end
  | c :: r =>
      if isspace c
      then match tok with [] => split_from [] r | _ => tok :: split_from [] r end
      else split_from (tok ++ [c]) r
  end.

Definition split (s : str) : list str := split_from [] s.

(** [s.rstrip()]: [s] without its trailing whitespace. *)
Fixpoint rstrip (s : str) : str :=
  match s with
  | [] => []
  | c :: r =>
      match rstrip r with
      | [] => if isspace c then [] else [c]
      | r' => c :: r'
      end
  end.

(** [b.decode()]: strict UTF-8; [None] is [UnicodeDecodeError]. *)
Definition is_cont (b : N) : bool := (128 <=? b) && (b <=? 191).

Fixpoint utf8_decode (bs : list N) : option str :=
  match bs with
  | [] => Some []
  | b0 :: r0 =>
      if b0 <? 128 then cons b0 <$> utf8_decode r0
      else if (194 <=? b0) && (b0 <=? 223) then
        match r0 with
        | b1 :: r1 =>
            if is_cont b1
            then cons ((b0 - 192) * 64 + (b1 - 128)) <$> utf8_decode r1
            else None
        | _ => None
        end
      else if (224 <=? b0) && (b0 <=? 239) then
        match r0 with
        | b1 :: b2 :: r2 =>
            let lo := if b0 =? 224 then 160 else 128 in
            let hi := if b0 =? 237 then 159 else 191 in
            if (lo <=? b1) && (b1 <=? hi) && is_cont b2
            then cons ((b0 - 224) * 4096 + (b1 - 128) * 64 + (b2 - 128))
                   <$> utf8_decode r2
            else None
        | _ => None
        end
      else if (240 <=? b0) && (b0 <=? 244) then
        match r0 with
        | b1 :: b2 :: b3 :: r3 =>
            let lo := if b0 =? 240 then 144 else 128 in
            let hi := if b0 =? 244 then 143 else 191 in
            if (lo <=? b1) && (b1 <=? hi) && is_cont b2 && is_cont b3
            then cons ((b0 - 240) * 262144 + (b1 - 128) * 4096
                       + (b2 - 128) * 64 + (b3 - 128))
                   <$> utf8_decode r3
            else None
        | _ => None
        end
      else None
  end.

Definition decode (b : bytes) : option str := utf8_decode (map Byte.to_N b).

(** Comparison of two [str]: code point by code point, a proper prefix
    first. *)
Fixpoint str_leb (a b : str) : bool :=
  match a, b with
  | [], _ => true
  | _ :: _, [] => false
  | x :: a', y :: b' => (x <? y) || ((x =? y) && str_leb a' b')
  end.

Definition str_le (a b : str) : Prop := str_leb a b = true.

#[global] Instance str_le_dec (a b : str) : Decision (str_le a b).
Proof. unfold str_le. apply _. Defined.

(** [sorted(l)] on a list of [str]. *)
Definition sorted (l : list str) : list str := merge_sort str_le l.

(** [os.path.join(a, b)]. *)
Definition startswith_sep (b : str) : bool :=
  match b with c :: _ => c =? 47 | [] => false end.

Definition endswith_sep (a : str) : bool :=
  match last a with Some c => c =? 47 | None => false end.

Definition os_path_join (a b : str) : str :=
  match a with
  | [] => b
  | _ => if startswith_sep b then b
         else if endswith_sep a then a ++ b
         else a ++ $"/" ++ b
  end.

(** The values [not_configured] returns, and their truth value in [if]. *)
Inductive pyval :=
  | VBytes (b : bytes)
  | VBool (b : bool).

Definition truthy (v : pyval) : bool :=
  match v with
  | VBytes [] => false
  | VBytes (_ :: _) => true
  | VBool b => b
  end.

(** ** Exceptions, the host and the monad *)

Inductive exn :=
  | CalledProcessError (returncode : Z)
  | FileNotFoundError
  | UnicodeDecodeError
  | RuntimeError (msg : str).

Inductive res (A : Type) :=
  | Ret (a : A)
  | Raise (e : exn).
Arguments Ret {A} a.
Arguments Raise {A} e.

(** What starting a child process does: it exits with a status and its
    standard output, or the executable is not found.  The other ways in
    which a start can fail (an executable without the permission to run, a
    search path that is not a directory) are not modelled. *)
Inductive outcome :=
  | Exited (returncode : Z) (stdout : bytes)
  | NoSuchFile.

Definition returned (o : outcome) : res bytes :=
  match o with
  | Exited rc out =>
      if (rc =? 0)%Z then Ret out else Raise (CalledProcessError rc)
  | NoSuchFile => Raise FileNotFoundError
  end.

(** The operating system, as far as [git.py] uses it. *)
Class Host (W : Type) := {
  spawn : list str -> W -> outcome * W;
  getenv : str -> W -> option str;
  getcwd : W -> str;
  mkdtemp : W -> str * W;
  rmtree : str -> W -> W
}.

(** One child process: its argument vector and what became of it. *)
Record call := Call {
  argv : list str;
  result : outcome
}.

(** The state: the receiver object, the host, and the child processes run
    so far, oldest first. *)
Record state (W O : Type) := State {
  this : O;
  world : W;
  trace : list call
}.
Arguments State {W O} this world trace.
Arguments this {W O} s.
Arguments world {W O} s.
Arguments trace {W O} s.

Definition M (W O A : Type) : Type := state W O -> res A * state W O.

Section Monad.
Context {W O : Type}.

Definition ret {A} (a : A) : M W O A := fun s => (Ret a, s).

Definition bind {A B} (m : M W O A) (k : A -> M W O B) : M W O B :=
  fun s =>
    match m s with
    | (Ret a, s') => k a s'
    | (Raise e, s') => (Raise e, s')
    end.

Definition raise {A} (e : exn) : M W O A := fun s => (Raise e, s).

(** [try: body / except <class>: handler]; [handler e] is [None] when
    the except clause does not match [e]. *)
Definition try_except {A} (body : M W O A)
    (handler : exn -> option (M W O A)) : M W O A :=
  fun s =>
    match body s with
    | (Ret a, s') => (Ret a, s')
    | (Raise e, s') =>
        match handler e with
        | Some h => h s'
        | None => (Raise e, s')
        end
    end.

Definition except_CalledProcessError {A} (h : M W O A)
    : exn -> option (M W O A) :=
  fun e => match e with CalledProcessError _ => Some h | _ => None end.

Definition except_FileNotFoundError {A} (h : M W O A)
    : exn -> option (M W O A) :=
  fun e => match e with FileNotFoundError => Some h | _ => None end.

Definition get_this : M W O O := fun s => (Ret (this s), s).

Definition set_this (o : O) : M W O unit :=
  fun s => (Ret tt, State o (world s) (trace s)).

(** [b.decode()] *)
Definition bytes_decode (b : bytes) : M W O str :=
  match decode b with
  | Some t => ret t
  | None => raise UnicodeDecodeError
  end.
End Monad.

Notation "'let*' x ':=' m 'in' k" := (bind m (fun x => k))
  (at level 10, x binder, m at level 100, k at level 200).

Section Os.
Context {W : Type} `{Host W} {O : Type}.

(** [subprocess.check_output(argv)]: the captured output on exit status
    0, [CalledProcessError] on another status, [FileNotFoundError] when
    the executable is missing. *)
Definition check_output (argv : list str) : M W O bytes :=
  fun s =>
    let '(o, w) := spawn argv (world s) in
    (returned o, State (this s) w (trace s ++ [Call argv o])).

(** [os.getenv(name, default)] *)
Definition os_getenv (name default : str) : M W O str :=
  fun s =>
    match getenv name (world s) with
    | Some v => (Ret v, s)
    | None => (Ret default, s)
    end.

(** [os.getcwd()] *)
Definition os_getcwd : M W O str := fun s => (Ret (getcwd (world s)), s).

(** [with tempfile.TemporaryDirectory() as d: body]: the directory is
    removed when the block is left, normally or by an exception. *)
Definition TemporaryDirectory {A} (body : str -> M W O A) : M W O A :=
  fun s =>
    let '(d, w) := mkdtemp (world s) in
    let '(r, s') := body d (State (this s) w (trace s)) in
    (r, State (this s') (rmtree d (world s')) (trace s')).
End Os.

(** ** Module-level functions of [git.py] *)

Section Functions.
Context {W : Type} `{Host W} {O : Type}.

Definition git (args : list str) : M W O bytes :=
  check_output ($"git" :: args).

Definition config (args : list str) : M W O bytes :=
  git ($"config" :: args).

Definition clone (args : list str) : M W O bytes :=
  git ($"clone" :: args).

(** The [try] block either returns ([Some]) or falls through ([None]) to
    the final [return False]. *)
Definition not_configured (key : str) : M W O pyval :=
  let* r :=
    try_except
      (let* out := config [$"--get"; key] in ret (Some (VBytes out)))
      (except_CalledProcessError (ret (Some (VBool true)))) in
  match r with
  | Some v => ret v
  | None => ret (VBool false)
  end.

Definition user_name_not_configured : M W O pyval :=
  not_configured $"user.name".

Definition user_email_not_configured : M W O pyval :=
  not_configured $"user.email".

Definition credential_helper_not_configured : M W O pyval :=
  not_configured $"credential.helper".

Definition assert_git_installed : M W O unit :=
  try_except
    (let* _ := git [$"--version"] in ret tt)
    (except_FileNotFoundError
       (raise (RuntimeError
          $"It looks like git is not installed. Please install git then try again."))).
End Functions.

(** ** The classes *)

Module GitClient.
Record t := Build {
  git_host : str;
  repo : str;
  git_dir : option str
}.

Definition default_git_host : str := $"git@github.com:".

Section Methods.
Context {W : Type} `{Host W} {O : Type}.

(** [__init__(self, repo, git_host='git@github.com:')]; the result is
    the initialised object. *)
Definition __init__ (repo git_host : str) : M W O t :=
  let* h := os_getenv $"SUBMIT50_GIT_HOST" git_host in
  ret (Build h repo None).
End Methods.
End GitClient.

Module AssignmentTemplateGitClient.
Import GitClient.

Section Methods.
Context {W : Type} `{Host W}.

(** [with self.clone() as temp_dir: body]; the [clone] called inside
    is the module-level function. *)
Definition clone {A} (body : str -> M W t A) : M W t A :=
  let* self := get_this in
  let remote := os_path_join (git_host self) (repo self) in
  TemporaryDirectory (fun temp_dir =>
    let* _ :=
      try_except
        (clone [$"--depth"; $"1"; $"--quiet"; remote; temp_dir])
        (except_CalledProcessError
           (raise (RuntimeError
              ($"Failed to clone " ++ [DQUOTE] ++ remote ++ [DQUOTE] ++ $".")))) in
    body temp_dir).
End Methods.
End AssignmentTemplateGitClient.

Module StudentAssignmentGitClient.
(** The attributes of an instance: those [GitClient.__init__] sets and
    the two of the subclass. *)
Record t := Build {
  username : str;
  git_host : str;
  repo : str;
  git_dir : option str;
  configs : list str
}.

Definition with_git_dir (d : option str) (self : t) : t :=
  Build (username self) (git_host self) (repo self) d (configs self).

Definition with_configs (c : list str) (self : t) : t :=
  Build (username self) (git_host self) (repo self) (git_dir self) c.

(** [['--git-dir', self.git_dir] if self.git_dir else []]: [None] and the
    empty string are both false. *)
Definition git_dir_args (self : t) : list str :=
  match git_dir self with
  | Some (c :: d) => [$"--git-dir"; c :: d]
  | Some [] => []
  | None => []
  end.

Section Methods.
Context {W : Type} `{Host W}.

(** [_default_configs(self)].  It runs inside [__init__], on the
    object under construction, and reads [self.username] only. *)
Definition _default_configs {O} (self : t) : M W O (list str) :=
  let configs := [] in
  let* c := user_name_not_configured in
  let configs :=
    if truthy c
    then configs ++ [$"-c"; $"user.name=" ++ username self]
    else configs in
  let* c := user_email_not_configured in
  let configs :=
    if truthy c
    then configs ++ [$"-c"; $"user.email=" ++ username self
                              ++ $"@users.noreply.github.com"]
    else configs in
  let* c := credential_helper_not_configured in
  let configs :=
    if truthy c
    then configs ++ [$"-c"; $"credential.helper=cache"]
    else configs in
  ret configs.

(** [__init__(self, username, repo, git_host='git@github.com:')]; the
    result is the initialised object. *)
Definition __init__ {O} (username repo git_host : str) : M W O t :=
  let* g := GitClient.__init__ repo git_host in
  let self :=
    Build username (GitClient.git_host g) (GitClient.repo g)
          (GitClient.git_dir g) [] in
  let* c := _default_configs self in
  ret (with_configs c self).

Definition _git (args : list str) : M W t bytes :=
  let* self := get_this in
  let git_dir := git_dir_args self in
  let* cwd := os_getcwd in
  git (git_dir ++ [$"--work-tree"; cwd] ++ configs self ++ args).

Definition _clone (args : list str) : M W t bytes :=
  _git ($"clone" :: args).

Definition _add_all : M W t bytes :=
  _git [$"add"; $"--all"].

Definition _ls_files : M W t (list str) :=
  let* out := _git [$"ls-files"] in
  let* text := bytes_decode out in
  ret (sorted (split text)).

Definition _commit : M W t bytes :=
  _git [$"commit"; $"--allow-empty"; $"--message";
        $"Automated commit by submit50"].

Definition _current_branch : M W t str :=
  let* out := _git [$"branch"; $"--show-current"] in
  let* text := bytes_decode out in
  ret (rstrip text).

Definition _push : M W t bytes :=
  let* current_branch := _current_branch in
  _git [$"push"; $"--quiet"; $"origin"; current_branch].

(** [self.git_dir = git_dir] *)
Definition set_git_dir (d : str) : M W t unit :=
  let* self := get_this in
  set_this (with_git_dir (Some d) self).

Definition clone_bare_message (remote : str) : str :=
  $"Failed to clone " ++ [DQUOTE] ++ remote ++ [DQUOTE] ++ $"." ++ [LF]
  ++ $"Please make sure you accepted the assignment invite on the problem set page.".

(** [with self.clone_bare() as git_dir: body] *)
Definition clone_bare {A} (body : str -> M W t A) : M W t A :=
  let* self := get_this in
  let remote := os_path_join (git_host self) (repo self) in
  TemporaryDirectory (fun git_dir =>
    let* _ :=
      try_except
        (_clone [$"--bare"; $"--quiet"; remote; git_dir])
        (except_CalledProcessError
           (raise (RuntimeError (clone_bare_message remote)))) in
    let* _ := set_git_dir git_dir in
    body git_dir).

Definition add : M W t (list str) :=
  try_except
    (let* _ := _add_all in _ls_files)
    (except_CalledProcessError
       (raise (RuntimeError $"Failed to ready files for submission."))).

Definition commit_push : M W t unit :=
  try_except
    (let* _ := _commit in let* _ := _push in ret tt)
    (except_CalledProcessError
       (raise (RuntimeError $"Failed to submit."))).
End Methods.
End StudentAssignmentGitClient.

(** ** A scripted host

    A host whose child processes answer from a fixed list of outcomes, one
    per invocation; once the list is used up the executable is missing. *)
Module Scripted.
Record world := World {
  replies : list outcome;
  environ : list (str * str);
  cwd : str;
  tmpdirs : list str
}.

Fixpoint lookup_env (name : str) (e : list (str * str)) : option str :=
  match e with
  | [] => None
  | (k, v) :: e' => if decide (k = name) then Some v else lookup_env name e'
  end.

#[global] Instance host : Host world := {
  spawn _ w :=
    match replies w with
    | [] => (NoSuchFile, w)
    | o :: os => (o, World os (environ w) (cwd w) (tmpdirs w))
    end;
  getenv name w := lookup_env name (environ w);
  getcwd w := cwd w;
  mkdtemp w :=
    match tmpdirs w with
    | [] => ($"/tmp/tmp", w)
    | d :: ds => (d, World (replies w) (environ w) (cwd w) ds)
    end;
  rmtree _ w := w
}.

(** A host with no environment override, running in [/home/alice/pset]. *)
Definition start (rs : list outcome) : world :=
  World rs [] $"/home/alice/pset" [$"/tmp/tmp1"; $"/tmp/tmp2"].

Definition ok (out : bytes) : outcome := Exited 0 out.
Definition failed : outcome := Exited 128 [].
End Scripted.

(** * Vocabulary of the statements *)

Import StudentAssignmentGitClient.

Definition exit_zero (o : outcome) : bool :=
  match o with Exited rc _ => (rc =? 0)%Z | NoSuchFile => false end.

Definition exit_nonzero (o : outcome) : bool :=
  match o with Exited rc _ => negb (rc =? 0)%Z | NoSuchFile => false end.

Definition missing (o : outcome) : bool :=
  match o with Exited _ _ => false | NoSuchFile => true end.

(** The state after one more child process. *)
Definition after {W O} (s : state W O) (w : W) (c : call) : state W O :=
  State (this s) w (trace s ++ [c]).

(** The argument vector of [git config --get key]. *)
Definition query (key : str) : list str :=
  [$"git"; $"config"; $"--get"; key].

(** The argument vector [_git] builds for [args]. *)
Definition git_argv (self : t) (cwd : str) (args : list str) : list str :=
  $"git" :: git_dir_args self ++ [$"--work-tree"; cwd] ++ configs self ++ args.

(** [cfg] holds the two consecutive arguments [-c kv]. *)
Definition has_override (cfg : list str) (kv : str) : Prop :=
  exists pre post, cfg = pre ++ [$"-c"; kv] ++ post.

(** What [not_configured] makes of the outcome of its query. *)
Definition answer (o : outcome) : res pyval :=
  match o with
  | Exited rc out => if (rc =? 0)%Z then Ret (VBytes out) else Ret (VBool true)
  | NoSuchFile => Raise FileNotFoundError
  end.

Definition name_override (self : t) : str := $"user.name=" ++ username self.
Definition email_override (self : t) : str :=
  $"user.email=" ++ username self ++ $"@users.noreply.github.com".
Definition helper_override : str := $"credential.helper=cache".

Definition override_if (v : pyval) (kv : str) : list str :=
  if truthy v then [$"-c"; kv] else [].

(** The exception a public method of the student client raises on a child
    process that did not exit with status 0. *)
Definition surfaced {A} (msg : str) (o : outcome) : res A :=
  match o with
  | Exited _ _ => Raise (RuntimeError msg)
  | NoSuchFile => Raise FileNotFoundError
  end.

Definition stdout_of (o : outcome) : bytes :=
  match o with Exited _ out => out | NoSuchFile => [] end.

(** Leaving a [TemporaryDirectory] block for directory [d]. *)
Definition leave {W} `{Host W} {O A} (d : str) (x : res A * state W O)
    : res A * state W O :=
  (fst x, State (this (snd x)) (rmtree d (world (snd x))) (trace (snd x))).

Definition add_message : str := $"Failed to ready files for submission.".
Definition submit_message : str := $"Failed to submit.".

(** The branch name [_current_branch] reads off the output of
    [git branch --show-current]. *)
Definition branch_of (o : outcome) : str :=
  match decode (stdout_of o) with
  | Some text => rstrip text
  | None => []
  end.

(** The empty [with] block. *)
Definition pass {W O} : str -> M W O unit := fun _ => ret tt.

(** What [git ls-files] prints for tracked paths [names] it does not
    quote: each path, followed by a line feed. *)
Definition listing (names : list str) : str :=
  concat (map (fun n => n ++ [LF]) names).

(** A path that [split] leaves whole: not empty, no whitespace in it. *)
Definition plain (n : str) : Prop :=
  n <> [] /\ forallb (fun c => negb (isspace c)) n = true.

(** The child process [c] was started by [_git] on the instance [self]. *)
Definition started_by (self : t) (c : call) : Prop :=
  exists cwd args, argv c = git_argv self cwd args.

(** [op], started in [s], catches the non-zero exit status of every child
    process and raises [RuntimeError msg] instead; a missing executable
    leaves it as [FileNotFoundError]. *)
Definition catches_exit_status {W O A} (msg : str) (op : M W O A)
    (s : state W O) : Prop :=
  exists new,
    trace (snd (op s)) = trace s ++ new
    /\ (forall rc, fst (op s) <> Raise (CalledProcessError rc))
    /\ (Exists (fun c => exit_nonzero (result c) = true) new ->
        fst (op s) = Raise (RuntimeError msg))
    /\ (Exists (fun c => missing (result c) = true) new ->
        fst (op s) = Raise FileNotFoundError).

(** [op], started in [s], catches a missing executable and raises
    [RuntimeError msg] instead; a non-zero exit status leaves it as
    [CalledProcessError]. *)
Definition catches_missing_executable {W O A} (msg : str) (op : M W O A)
    (s : state W O) : Prop :=
  exists new,
    trace (snd (op s)) = trace s ++ new
    /\ fst (op s) <> Raise FileNotFoundError
    /\ (Exists (fun c => missing (result c) = true) new ->
        fst (op s) = Raise (RuntimeError msg))
    /\ (Exists (fun c => exit_nonzero (result c) = true) new ->
        exists rc, fst (op s) = Raise (CalledProcessError rc)).

(** Following the specification's words: the domain of a host prefix such
    as [git@github.com:] is the text after the [@] up to the colon. *)
Fixpoint spec_after_at (h : str) : option str :=
  match h with
  | [] => None
  | c :: r => if c =? 64 then Some r else spec_after_at r
  end.

Fixpoint spec_until_colon (h : str) : str :=
  match h with
  | [] => []
  | c :: r => if c =? 58 then [] else c :: spec_until_colon r
  end.

Definition spec_host_domain (h : str) : str :=
  spec_until_colon (match spec_after_at h with Some r => r | None => h end).

(** Following the specification's words: the user.email override for an
    identity and a host prefix. *)
Definition spec_email_override (identity host : str) : str :=
  $"user.email=" ++ identity ++ $"@users.noreply." ++ spec_host_domain host.

(** [op], started in [s], starts at most [n] child processes, and each of
    them is [git]. *)
Definition runs_git_at_most {W O A} (n : nat) (op : M W O A)
    (s : state W O) : Prop :=
  exists new,
    trace (snd (op s)) = trace s ++ new
    /\ (length new <= n)%nat
    /\ Forall (fun c => head (argv c) = Some $"git") new.

(** A query whose outcome makes [_default_configs] add the override: every
    outcome but an exit with status 0 that printed nothing. *)
Definition adds_override (o : outcome) : bool :=
  match o with
  | Exited rc [] => negb (rc =? 0)%Z
  | Exited _ (_ :: _) => true
  | NoSuchFile => false
  end.

(** Strictly before, in the order of [sorted]. *)
Definition str_lt (a b : str) : Prop := str_le a b /\ a <> b.

(** The bytes of [b] are all ASCII. *)
Definition is_ascii (b : bytes) : bool :=
  forallb (fun x => Byte.to_N x <? 128) b.

(** The block of a submission: stage, then commit and push, and hand back
    the staged paths. *)
Definition stage_and_submit {W} `{Host W} : str -> M W t (list str) :=
  fun _ =>
    let* files := add in
    let* _ := commit_push in
    ret files.

(** ** Concrete scenarios on the scripted host *)

Module Scenario.
Import Scripted.

(** [StudentAssignmentGitClient('alice', 'org/repo')] while [__init__]
    still runs. *)
Definition alice0 : t :=
  Build $"alice" GitClient.default_git_host $"org/repo" None [].

(** A fresh interpreter state on a host that answers with [rs]. *)
Definition boot (rs : list outcome) : state world unit :=
  State tt (start rs) [].

(** The same with [SUBMIT50_GIT_HOST] set to [h]. *)
Definition boot_with_host (h : str) (rs : list outcome) : state world unit :=
  State tt (World rs [($"SUBMIT50_GIT_HOST", h)] $"/home/alice/pset"
              [$"/tmp/tmp1"; $"/tmp/tmp2"]) [].

(** An instance as [__init__] leaves it when all three keys are unset. *)
Definition alice : t :=
  Build $"alice" GitClient.default_git_host $"org/repo" None
    [$"-c"; $"user.name=alice";
     $"-c"; $"user.email=alice@users.noreply.github.com";
     $"-c"; $"credential.helper=cache"].

(** [alice] as the receiver, on a host that answers with [rs]. *)
Definition session (rs : list outcome) : state world t :=
  State alice (start rs) [].
End Scenario.

(** ** Tactics *)

Ltac eval_lits :=
  repeat match goal with
         | |- context [lit ?x] =>
             let v := eval vm_compute in (lit x) in change (lit x) with v
         | Hyp : context [lit ?x] |- _ =>
             let v := eval vm_compute in (lit x) in change (lit x) with v in Hyp
         end.

Ltac exists_cases :=
  repeat match goal with
         | Hyp : Exists _ (_ :: _) |- _ =>
             apply Exists_cons in Hyp; destruct Hyp as [Hyp|Hyp]
         | Hyp : Exists _ [] |- _ => apply Exists_nil in Hyp; destruct Hyp
         end.

Ltac outcome_cases o :=
  let rc := fresh "rc" in
  let out := fresh "out" in
  let Z := fresh "Z" in
  destruct o as [rc out|]; simpl; [destruct (rc =? 0)%Z eqn:Z; simpl|].

Ltac settle_catch :=
  eexists; (split; [reflexivity|]);
  repeat split; try discriminate;
  intros Hex; exists_cases; simpl in *;
  repeat match goal with
         | Hz : (?rc =? 0)%Z = _, Hyp : context [(?rc =? 0)%Z] |- _ =>
             rewrite Hz in Hyp
         end;
  simpl in *; try discriminate; eauto.

(** * Properties *)

(** ** The library functions on examples *)

Example os_path_join_absolute :
  os_path_join $"git@github.com:" $"/org/repo" = $"/org/repo".
Proof. reflexivity. Qed.

Example os_path_join_trailing_slash :
  os_path_join $"https://github.com/" $"org/repo"
  = $"https://github.com/org/repo".
Proof. reflexivity. Qed.

Example split_runs_of_whitespace :
  split ([LF] ++ $"a.c  b.c" ++ [9; LF] ++ $"c.c") = [$"a.c"; $"b.c"; $"c.c"].
Proof. reflexivity. Qed.

Example rstrip_keeps_inner_whitespace :
  rstrip ($"my branch " ++ [LF]) = $"my branch".
Proof. reflexivity. Qed.

Example sorted_by_code_point :
  sorted [$"b"; $"a.c"; $"B"; $"a"] = [$"B"; $"a"; $"a.c"; $"b"].
Proof. reflexivity. Qed.

Example decode_three_bytes : decode [xe2; x82; xac] = Some [8364].
Proof. reflexivity. Qed.

Example decode_four_bytes : decode [xf0; x9f; x98; x80] = Some [128512].
Proof. reflexivity. Qed.

Example decode_rejects_overlong : decode [xc0; x80] = None.
Proof. reflexivity. Qed.

Example decode_rejects_surrogate : decode [xed; xa0; x80] = None.
Proof. reflexivity. Qed.

Example decode_rejects_truncated : decode [xe2; x82] = None.
Proof. reflexivity. Qed.

(** ** Running the building blocks *)

Section Runs.
Context {W : Type} `{Host W}.

Lemma not_configured_run {O} (key : str) (s : state W O) o w :
  spawn (query key) (world s) = (o, w) ->
  not_configured key s = (answer o, after s w (Call (query key) o)).
Proof.
  intros E. unfold not_configured, config, git, check_output, bind, try_except.
  change ($"git" :: $"config" :: [$"--get"; key]) with (query key).
  rewrite E. destruct o as [rc out|]; simpl; [|reflexivity].
  destruct (rc =? 0)%Z; reflexivity.
Qed.

Lemma _default_configs_run {O} (self : t) (s : state W O)
    o1 w1 o2 w2 o3 w3 v1 v2 v3 :
  spawn (query $"user.name") (world s) = (o1, w1) ->
  spawn (query $"user.email") w1 = (o2, w2) ->
  spawn (query $"credential.helper") w2 = (o3, w3) ->
  answer o1 = Ret v1 -> answer o2 = Ret v2 -> answer o3 = Ret v3 ->
  _default_configs self s =
    (Ret (override_if v1 (name_override self)
          ++ override_if v2 (email_override self)
          ++ override_if v3 helper_override),
     State (this s) w3
       (trace s ++ [Call (query $"user.name") o1;
                    Call (query $"user.email") o2;
                    Call (query $"credential.helper") o3])).
Proof.
  intros E1 E2 E3 A1 A2 A3.
  unfold _default_configs, user_name_not_configured,
    user_email_not_configured, credential_helper_not_configured.
  unfold bind at 1. rewrite (not_configured_run _ _ _ _ E1), A1.
  unfold bind at 1.
  rewrite (not_configured_run $"user.email" (after s w1 _) o2 w2 E2), A2.
  unfold bind at 1.
  rewrite (not_configured_run $"credential.helper"
             (after (after s w1 _) w2 _) o3 w3 E3), A3.
  unfold ret, after, override_if, name_override, email_override,
    helper_override; simpl.
  rewrite <- !app_assoc; simpl.
  destruct (truthy v1), (truthy v2), (truthy v3); reflexivity.
Qed.

(** The final [return False] of [not_configured] is never reached. *)
Lemma not_configured_never_False {O} (key : str) (s : state W O) :
  fst (not_configured key s) <> Ret (VBool false).
Proof.
  destruct (spawn (query key) (world s)) as [o w] eqn:E.
  rewrite (not_configured_run _ _ _ _ E); simpl.
  destruct o as [rc out|]; simpl; [|discriminate].
  destruct (rc =? 0)%Z; discriminate.
Qed.

Lemma answer_nonzero o : exit_nonzero o = true -> answer o = Ret (VBool true).
Proof.
  destruct o as [rc out|]; simpl; [|discriminate].
  destruct (rc =? 0)%Z; [discriminate|reflexivity].
Qed.

Lemma answer_found o : missing o = false -> exists v, answer o = Ret v.
Proof.
  destruct o as [rc out|]; simpl; [|discriminate].
  destruct (rc =? 0)%Z; eauto.
Qed.

Lemma answer_not_process_error o rc : answer o <> Raise (CalledProcessError rc).
Proof.
  destruct o as [rc' out|]; simpl; [|discriminate].
  destruct (rc' =? 0)%Z; discriminate.
Qed.
End Runs.

(** ** Configuration overrides *)

(** C6: a configuration query that exits with a non-zero status makes
    [not_configured] return [True] for whatever key and for whatever
    reason; [_default_configs] never raises the process error of a query,
    and when git is installed it returns a list that holds the override of
    every key whose query exited non-zero. *)
Theorem C6_failed_query_counts_as_unconfigured
    {W : Type} `{Host W} {O : Type} (self : t) (s : state W O)
    o1 w1 o2 w2 o3 w3 (key : str) (sk : state W O) ok wk :
  spawn (query $"user.name") (world s) = (o1, w1) ->
  spawn (query $"user.email") w1 = (o2, w2) ->
  spawn (query $"credential.helper") w2 = (o3, w3) ->
  spawn (query key) (world sk) = (ok, wk) ->
  (exit_nonzero ok = true ->
     not_configured key sk
     = (Ret (VBool true), after sk wk (Call (query key) ok)))
  /\ (forall rc, fst (_default_configs self s) <> Raise (CalledProcessError rc))
  /\ (missing o1 = false -> missing o2 = false -> missing o3 = false ->
      exists cfg,
        _default_configs self s
        = (Ret cfg,
           State (this s) w3
             (trace s ++ [Call (query $"user.name") o1;
                          Call (query $"user.email") o2;
                          Call (query $"credential.helper") o3]))
        /\ (exit_nonzero o1 = true -> has_override cfg (name_override self))
        /\ (exit_nonzero o2 = true -> has_override cfg (email_override self))
        /\ (exit_nonzero o3 = true -> has_override cfg helper_override)).
Proof.
  intros E1 E2 E3 Ek. split; [|split].
  - intros Hk. rewrite (not_configured_run _ _ _ _ Ek).
    now rewrite (answer_nonzero _ Hk).
  - intros rc.
    unfold _default_configs, user_name_not_configured,
      user_email_not_configured, credential_helper_not_configured.
    unfold bind at 1. rewrite (not_configured_run _ _ _ _ E1).
    destruct (answer o1) as [v1|e1] eqn:A1;
      [|simpl; intros [= ->]; exact (answer_not_process_error o1 rc A1)].
    unfold bind at 1.
    rewrite (not_configured_run $"user.email" (after s w1 _) o2 w2 E2).
    destruct (answer o2) as [v2|e2] eqn:A2;
      [|simpl; intros [= ->]; exact (answer_not_process_error o2 rc A2)].
    unfold bind at 1.
    rewrite (not_configured_run $"credential.helper"
               (after (after s w1 _) w2 _) o3 w3 E3).
    destruct (answer o3) as [v3|e3] eqn:A3;
      [discriminate|simpl; intros [= ->]; exact (answer_not_process_error o3 rc A3)].
  - intros M1 M2 M3.
    destruct (answer_found _ M1) as [v1 A1].
    destruct (answer_found _ M2) as [v2 A2].
    destruct (answer_found _ M3) as [v3 A3].
    eexists. split; [exact (_default_configs_run self s _ _ _ _ _ _ _ _ _
                              E1 E2 E3 A1 A2 A3)|].
    repeat split; intros Hn; apply answer_nonzero in Hn.
    + assert (v1 = VBool true) as -> by congruence.
      exists [], (override_if v2 (email_override self)
                  ++ override_if v3 helper_override). reflexivity.
    + assert (v2 = VBool true) as -> by congruence.
      exists (override_if v1 (name_override self)),
             (override_if v3 helper_override).
      reflexivity.
    + assert (v3 = VBool true) as -> by congruence.
      exists (override_if v1 (name_override self)
              ++ override_if v2 (email_override self)), [].
      unfold override_if at 3; simpl. now rewrite <- app_assoc.
Qed.

(** The user.name and credential.helper queries exit with status 128, the
    user.email query answers: [True] is returned for user.name and both
    overrides are derived. *)
Lemma C6_witness :
  let s := Scenario.boot [Scripted.failed;
                          Scripted.ok (blit "a@b.org" ++ [x0a]);
                          Scripted.failed] in
  fst (not_configured $"user.name" s) = Ret (VBool true)
  /\ exists cfg,
       fst (_default_configs Scenario.alice0 s) = Ret cfg
       /\ has_override cfg $"user.name=alice"
       /\ has_override cfg $"credential.helper=cache".
Proof.
  intros s.
  epose proof (C6_failed_query_counts_as_unconfigured
                 Scenario.alice0 s _ _ _ _ _ _ $"user.name" s _ _
                 eq_refl eq_refl eq_refl eq_refl) as (Hk & _ & Hc).
  split.
  - rewrite Hk; reflexivity.
  - destruct Hc as (cfg & Hrun & Hn & _ & Hh); [reflexivity..|].
    exists cfg. split; [rewrite Hrun; reflexivity|].
    split; [apply Hn | apply Hh]; reflexivity.
Defined.

Lemma has_override_In (cfg : list str) (kv : str) :
  has_override cfg kv -> In kv cfg.
Proof.
  intros (pre & post & ->). apply in_or_app. right. simpl. auto.
Qed.

Lemma In_override_if (v : pyval) (kv x : str) :
  In x (override_if v kv) -> x = $"-c" \/ x = kv.
Proof.
  unfold override_if. destruct (truthy v); simpl; intuition auto.
Qed.

(** A key whose query exits with status 0 and prints anything at all is
    overridden just as an unset one. *)
Lemma configured_key_is_overridden
    {W : Type} `{Host W} {O : Type} (self : t) (s : state W O)
    o1 w1 o2 w2 o3 w3 :
  spawn (query $"user.name") (world s) = (o1, w1) ->
  spawn (query $"user.email") w1 = (o2, w2) ->
  spawn (query $"credential.helper") w2 = (o3, w3) ->
  exit_zero o1 = true -> exit_zero o2 = true -> exit_zero o3 = true ->
  stdout_of o1 <> [] -> stdout_of o2 <> [] -> stdout_of o3 <> [] ->
  fst (_default_configs self s)
  = Ret [$"-c"; name_override self; $"-c"; email_override self;
         $"-c"; helper_override].
Proof.
  intros E1 E2 E3 Z1 Z2 Z3 N1 N2 N3.
  destruct o1 as [rc1 [|b1 out1]|], o2 as [rc2 [|b2 out2]|],
           o3 as [rc3 [|b3 out3]|]; simpl in *;
    try discriminate; try contradiction.
  rewrite (_default_configs_run self s _ _ _ _ _ _
             (VBytes (b1 :: out1)) (VBytes (b2 :: out2)) (VBytes (b3 :: out3))
             E1 E2 E3); simpl; [reflexivity|..].
  - now rewrite Z1.
  - now rewrite Z2.
  - now rewrite Z3.
Qed.

(** C1: on a host where all three keys are set (each query exits with
    status 0 and prints the value), [not_configured] returns the printed
    bytes, which are true in the [if], and [__init__] derives an override
    for each of the three keys. *)
Theorem C1_configured_keys_are_overridden :
  let s := Scenario.boot [Scripted.ok (blit "Alice" ++ [x0a]);
                          Scripted.ok (blit "alice@example.org" ++ [x0a]);
                          Scripted.ok (blit "store" ++ [x0a])] in
  fst (not_configured $"user.name" s) = Ret (VBytes (blit "Alice" ++ [x0a]))
  /\ truthy (VBytes (blit "Alice" ++ [x0a])) = true
  /\ fst (__init__ $"alice" $"org/repo" GitClient.default_git_host s)
     = Ret (Build $"alice" $"git@github.com:" $"org/repo" None
              [$"-c"; $"user.name=alice";
               $"-c"; $"user.email=alice@users.noreply.github.com";
               $"-c"; $"credential.helper=cache"]).
Proof. vm_compute. repeat split. Qed.

(** C7, refuted as stated: with [SUBMIT50_GIT_HOST=git@gitlab.com:] and
    user.email unset, the instance has that host prefix, yet the override
    it derives names github.com and not the host's domain. *)
Lemma C7_counterexample :
  let s := Scenario.boot_with_host $"git@gitlab.com:"
             [Scripted.failed; Scripted.failed; Scripted.failed] in
  exists self,
    fst (__init__ $"alice" $"org/repo" GitClient.default_git_host s) = Ret self
    /\ git_host self = $"git@gitlab.com:"
    /\ spec_email_override $"alice" (git_host self)
       = $"user.email=alice@users.noreply.gitlab.com"
    /\ ~ has_override (configs self) (spec_email_override $"alice" (git_host self))
    /\ has_override (configs self) $"user.email=alice@users.noreply.github.com".
Proof.
  intros s. eexists. split; [vm_compute; reflexivity|].
  split; [reflexivity|]. split; [reflexivity|]. split.
  - intros Hov. apply has_override_In in Hov. vm_compute in Hov.
    intuition discriminate.
  - exists [$"-c"; $"user.name=alice"], [$"-c"; $"credential.helper=cache"].
    reflexivity.
Qed.

(** C7, amended: when git is installed [__init__] returns an instance
    whose host prefix is the value of [SUBMIT50_GIT_HOST], or the
    [git_host] argument when the variable is unset; if the user.email
    query exits non-zero the derived list holds
    [-c user.email=<username>@users.noreply.github.com], and whatever the
    host prefix, every user.email entry of the list is that one. *)
Theorem C7_email_override_names_github
    {W : Type} `{Host W} {O : Type} (user repo_arg host_arg : str)
    (s : state W O) o1 w1 o2 w2 o3 w3 :
  spawn (query $"user.name") (world s) = (o1, w1) ->
  spawn (query $"user.email") w1 = (o2, w2) ->
  spawn (query $"credential.helper") w2 = (o3, w3) ->
  missing o1 = false -> missing o2 = false -> missing o3 = false ->
  exists self,
    __init__ user repo_arg host_arg s
    = (Ret self,
       State (this s) w3
         (trace s ++ [Call (query $"user.name") o1;
                      Call (query $"user.email") o2;
                      Call (query $"credential.helper") o3]))
    /\ username self = user
    /\ git_host self
       = match getenv $"SUBMIT50_GIT_HOST" (world s) with
         | Some h => h
         | None => host_arg
         end
    /\ (exit_nonzero o2 = true ->
        has_override (configs self)
          ($"user.email=" ++ user ++ $"@users.noreply.github.com"))
    /\ (forall kv rest,
          In kv (configs self) -> kv = $"user.email=" ++ rest ->
          kv = $"user.email=" ++ user ++ $"@users.noreply.github.com").
Proof.
  intros E1 E2 E3 M1 M2 M3.
  destruct (answer_found _ M1) as [v1 A1].
  destruct (answer_found _ M2) as [v2 A2].
  destruct (answer_found _ M3) as [v3 A3].
  set (h := match getenv $"SUBMIT50_GIT_HOST" (world s) with
            | Some h => h | None => host_arg end).
  set (self0 := Build user h repo_arg None []).
  assert (Hinit : __init__ user repo_arg host_arg s
                  = bind (_default_configs self0)
                         (fun c => ret (with_configs c self0)) s).
  { unfold __init__, GitClient.__init__, os_getenv, bind at 1 2, ret at 1.
    subst self0 h. destruct (getenv _ (world s)); reflexivity. }
  rewrite Hinit. unfold bind.
  rewrite (_default_configs_run self0 s _ _ _ _ _ _ _ _ _ E1 E2 E3 A1 A2 A3).
  eexists. split; [reflexivity|].
  split; [reflexivity|]. split; [reflexivity|]. split.
  - intros Hn. apply answer_nonzero in Hn.
    assert (v2 = VBool true) as -> by congruence.
    exists (override_if v1 (name_override self0)),
           (override_if v3 helper_override). reflexivity.
  - intros kv rest Hin Hkv. simpl in Hin.
    apply in_app_or in Hin as [Hin|Hin];
      [|apply in_app_or in Hin as [Hin|Hin]];
      apply In_override_if in Hin as [Hc|Hc]; try exact Hc;
      exfalso; rewrite Hkv in Hc; revert Hc;
      unfold name_override, helper_override; eval_lits; discriminate.
Qed.

(** user.email is unset and the host prefix is overridden. *)
Lemma C7_witness :
  let s := Scenario.boot_with_host $"git@gitlab.com:"
             [Scripted.failed; Scripted.failed; Scripted.failed] in
  exists self,
    fst (__init__ $"alice" $"org/repo" GitClient.default_git_host s) = Ret self
    /\ git_host self = $"git@gitlab.com:"
    /\ has_override (configs self)
         ($"user.email=" ++ $"alice" ++ $"@users.noreply.github.com").
Proof.
  intros s.
  epose proof (C7_email_override_names_github
                 $"alice" $"org/repo" GitClient.default_git_host s
                 _ _ _ _ _ _ eq_refl eq_refl eq_refl eq_refl eq_refl eq_refl)
    as (self & Hrun & _ & Hhost & Hmail & _).
  exists self. split; [rewrite Hrun; reflexivity|].
  split; [exact Hhost | apply Hmail; reflexivity].
Defined.

(** ** Running the methods *)

Section MethodRuns.
Context {W : Type} `{Host W}.

Lemma _git_step (args : list str) (s : state W t) o w :
  spawn (git_argv (this s) (getcwd (world s)) args) (world s) = (o, w) ->
  _git args s
  = (returned o,
     after s w (Call (git_argv (this s) (getcwd (world s)) args) o)).
Proof.
  intros E. unfold _git, bind, get_this, os_getcwd, git, check_output.
  change ($"git" :: git_dir_args (this s)
            ++ [$"--work-tree"; getcwd (world s)] ++ configs (this s) ++ args)
    with (git_argv (this s) (getcwd (world s)) args).
  now rewrite E.
Qed.

(** [clone_bare] with whatever block: the block runs only after a clone
    that exited with status 0, in a state where [git_dir] is bound. *)
Lemma clone_bare_run {A} (body : str -> M W t A) (s : state W t) d w1 o w2 :
  mkdtemp (world s) = (d, w1) ->
  let remote := os_path_join (git_host (this s)) (repo (this s)) in
  let a := git_argv (this s) (getcwd w1)
             [$"clone"; $"--bare"; $"--quiet"; remote; d] in
  spawn a w1 = (o, w2) ->
  clone_bare body s
  = if exit_zero o
    then leave d (body d (State (with_git_dir (Some d) (this s)) w2
                            (trace s ++ [Call a o])))
    else (surfaced (clone_bare_message remote) o,
          State (this s) (rmtree d w2) (trace s ++ [Call a o])).
Proof.
  intros Ed remote a Es. subst a remote.
  unfold clone_bare, bind at 1, get_this, TemporaryDirectory.
  rewrite Ed. unfold bind at 1, try_except, _clone.
  rewrite (_git_step _ (State (this s) w1 (trace s)) o w2 Es).
  unfold after; simpl this; simpl world; simpl trace.
  destruct o as [rc out|]; simpl.
  - destruct (rc =? 0)%Z; simpl.
    + unfold leave, set_git_dir, bind, get_this, set_this; simpl.
      destruct (body d _) as [r s']. reflexivity.
    + reflexivity.
  - reflexivity.
Qed.
End MethodRuns.

Section TemplateRuns.
Context {W : Type} `{Host W}.

Lemma template_clone_run {A} (body : str -> M W GitClient.t A)
    (s : state W GitClient.t) d w1 o w2 :
  mkdtemp (world s) = (d, w1) ->
  let remote :=
    os_path_join (GitClient.git_host (this s)) (GitClient.repo (this s)) in
  let a := [$"git"; $"clone"; $"--depth"; $"1"; $"--quiet"; remote; d] in
  spawn a w1 = (o, w2) ->
  AssignmentTemplateGitClient.clone body s
  = if exit_zero o
    then leave d (body d (State (this s) w2 (trace s ++ [Call a o])))
    else (surfaced ($"Failed to clone " ++ [DQUOTE] ++ remote ++ [DQUOTE]
                      ++ $".") o,
          State (this s) (rmtree d w2) (trace s ++ [Call a o])).
Proof.
  intros Ed remote a Es. subst a remote.
  unfold AssignmentTemplateGitClient.clone, bind at 1, get_this,
    TemporaryDirectory.
  rewrite Ed. unfold bind at 1, try_except, clone, git, check_output.
  simpl this; simpl world; simpl trace. rewrite Es.
  destruct o as [rc out|]; simpl.
  - destruct (rc =? 0)%Z; simpl.
    + unfold leave. destruct (body d _) as [r s']. reflexivity.
    + reflexivity.
  - reflexivity.
Qed.
End TemplateRuns.

(** ** The remote URL *)

(** C2, refuted as stated: with the default host prefix and repository
    [org/repo] both clone operations pass [git@github.com:/org/repo] to
    git, which is not the concatenation [git@github.com:org/repo]. *)
Lemma C2_counterexample :
  exists g,
    fst (GitClient.__init__ $"org/repo" GitClient.default_git_host
           (Scenario.boot []))
    = Ret g
    /\ map argv (trace (snd (AssignmentTemplateGitClient.clone pass
                               (State g (Scripted.start [Scripted.ok []]) []))))
       = [[$"git"; $"clone"; $"--depth"; $"1"; $"--quiet";
           $"git@github.com:/org/repo"; $"/tmp/tmp1"]]
    /\ map argv (trace (snd (clone_bare pass
                               (Scenario.session [Scripted.ok []]))))
       = [[$"git"; $"--work-tree"; $"/home/alice/pset";
           $"-c"; $"user.name=alice";
           $"-c"; $"user.email=alice@users.noreply.github.com";
           $"-c"; $"credential.helper=cache";
           $"clone"; $"--bare"; $"--quiet";
           $"git@github.com:/org/repo"; $"/tmp/tmp1"]]
    /\ GitClient.default_git_host ++ $"org/repo" = $"git@github.com:org/repo"
    /\ $"git@github.com:/org/repo" <> GitClient.default_git_host ++ $"org/repo".
Proof.
  eexists. split; [vm_compute; reflexivity|].
  split; [vm_compute; reflexivity|].
  split; [vm_compute; reflexivity|].
  split; [reflexivity|]. vm_compute. discriminate.
Qed.

(** C2, amended: the remote URL both clone operations pass to git is
    [os.path.join(host, repo)]: the repository alone when the host prefix
    is empty or the repository starts with a slash, the concatenation when
    the host prefix ends with a slash, and otherwise the two joined by one
    slash; with the default host prefix and [org/repo] it is
    [git@github.com:/org/repo]. *)
Theorem C2_remote_is_os_path_join
    {W : Type} `{Host W} (g : state W GitClient.t) (s : state W t) :
  (exists d o,
     trace (snd (AssignmentTemplateGitClient.clone pass g))
     = trace g
       ++ [Call [$"git"; $"clone"; $"--depth"; $"1"; $"--quiet";
                 os_path_join (GitClient.git_host (this g))
                              (GitClient.repo (this g)); d] o])
  /\ (exists cwd d o,
        trace (snd (clone_bare pass s))
        = trace s
          ++ [Call (git_argv (this s) cwd
                      [$"clone"; $"--bare"; $"--quiet";
                       os_path_join (git_host (this s)) (repo (this s)); d])
                   o])
  /\ (forall host repo_path,
        os_path_join host repo_path
        = if bool_decide (host = []) || startswith_sep repo_path
          then repo_path
          else if endswith_sep host then host ++ repo_path
               else host ++ $"/" ++ repo_path)
  /\ os_path_join GitClient.default_git_host $"org/repo"
     = $"git@github.com:/org/repo".
Proof.
  split; [|split; [|split]].
  - destruct (mkdtemp (world g)) as [d w1] eqn:Ed.
    destruct (spawn [$"git"; $"clone"; $"--depth"; $"1"; $"--quiet";
                     os_path_join (GitClient.git_host (this g))
                                  (GitClient.repo (this g)); d] w1)
      as [o w2] eqn:Es.
    exists d, o.
    rewrite (template_clone_run pass g d w1 o w2 Ed Es).
    destruct (exit_zero o); reflexivity.
  - destruct (mkdtemp (world s)) as [d w1] eqn:Ed.
    destruct (spawn (git_argv (this s) (getcwd w1)
                       [$"clone"; $"--bare"; $"--quiet";
                        os_path_join (git_host (this s)) (repo (this s)); d])
                    w1) as [o w2] eqn:Es.
    exists (getcwd w1), d, o.
    rewrite (clone_bare_run pass s d w1 o w2 Ed Es).
    destruct (exit_zero o); reflexivity.
  - intros host repo_path. unfold os_path_join.
    destruct host as [|c host]; [reflexivity|].
    rewrite bool_decide_eq_false_2 by discriminate. reflexivity.
  - reflexivity.
Qed.

(** ** The bare clone *)

(** C3, refuted as stated: for identity [alice], repository [org/repo] and
    the default host prefix, a bare clone that exits non-zero raises a
    message that quotes [git@github.com:/org/repo], not the message with
    [git@github.com:org/repo]. *)
Lemma C3_counterexample :
  fst (__init__ $"alice" $"org/repo" GitClient.default_git_host
         (Scenario.boot [Scripted.failed; Scripted.failed; Scripted.failed]))
  = Ret Scenario.alice
  /\ fst (clone_bare pass (Scenario.session [Scripted.failed]))
     = Raise (RuntimeError
         ($"Failed to clone " ++ [DQUOTE] ++ $"git@github.com:/org/repo"
          ++ [DQUOTE] ++ $"." ++ [LF]
          ++ $"Please make sure you accepted the assignment invite on the problem set page."))
  /\ fst (clone_bare pass (Scenario.session [Scripted.failed]))
     <> Raise (RuntimeError
          ($"Failed to clone " ++ [DQUOTE] ++ $"git@github.com:org/repo"
           ++ [DQUOTE] ++ $"." ++ [LF]
           ++ $"Please make sure you accepted the assignment invite on the problem set page.")).
Proof.
  split; [vm_compute; reflexivity|].
  split; [vm_compute; reflexivity|].
  vm_compute. discriminate.
Qed.

(** C3, amended: whenever the bare-clone invocation exits with a non-zero
    status, [clone_bare] raises [RuntimeError] with the message
    [Failed to clone "<remote>".], a newline, and the line about the
    assignment invite, where [<remote>] is [os.path.join(host, repo)]; for
    repository [org/repo] and the default host prefix the quoted remote is
    [git@github.com:/org/repo]. *)
Theorem C3_failed_bare_clone_message
    {W : Type} `{Host W} {A : Type} (body : str -> M W t A) (s : state W t)
    d w1 o w2 :
  mkdtemp (world s) = (d, w1) ->
  spawn (git_argv (this s) (getcwd w1)
           [$"clone"; $"--bare"; $"--quiet";
            os_path_join (git_host (this s)) (repo (this s)); d]) w1
  = (o, w2) ->
  exit_nonzero o = true ->
  fst (clone_bare body s)
  = Raise (RuntimeError
      ($"Failed to clone " ++ [DQUOTE]
       ++ os_path_join (git_host (this s)) (repo (this s))
       ++ [DQUOTE] ++ $"." ++ [LF]
       ++ $"Please make sure you accepted the assignment invite on the problem set page."))
  /\ (git_host (this s) = GitClient.default_git_host ->
      repo (this s) = $"org/repo" ->
      fst (clone_bare body s)
      = Raise (RuntimeError
          ($"Failed to clone " ++ [DQUOTE] ++ $"git@github.com:/org/repo"
           ++ [DQUOTE] ++ $"." ++ [LF]
           ++ $"Please make sure you accepted the assignment invite on the problem set page."))).
Proof.
  intros Ed Es Hn.
  rewrite (clone_bare_run body s d w1 o w2 Ed Es).
  destruct o as [rc out|]; simpl in Hn; [|discriminate].
  simpl. destruct (rc =? 0)%Z; [discriminate|]. simpl.
  split; [reflexivity|]. intros -> ->. reflexivity.
Qed.

(** The bare clone of [alice]'s repository exits with status 128. *)
Lemma C3_witness :
  fst (clone_bare pass (Scenario.session [Scripted.failed]))
  = Raise (RuntimeError
      ($"Failed to clone " ++ [DQUOTE] ++ $"git@github.com:/org/repo"
       ++ [DQUOTE] ++ $"." ++ [LF]
       ++ $"Please make sure you accepted the assignment invite on the problem set page.")).
Proof.
  epose proof (C3_failed_bare_clone_message pass
                 (Scenario.session [Scripted.failed]) _ _ _ _
                 eq_refl eq_refl eq_refl) as [_ Hmsg].
  apply Hmsg; reflexivity.
Defined.

Section StudentRuns.
Context {W : Type} `{Host W}.

Lemma add_run (s : state W t) o1 w1 o2 w2 :
  let a1 := git_argv (this s) (getcwd (world s)) [$"add"; $"--all"] in
  let a2 := git_argv (this s) (getcwd w1) [$"ls-files"] in
  spawn a1 (world s) = (o1, w1) ->
  spawn a2 w1 = (o2, w2) ->
  add s
  = if exit_zero o1
    then (if exit_zero o2
          then match decode (stdout_of o2) with
               | Some text => Ret (sorted (split text))
               | None => Raise UnicodeDecodeError
               end
          else surfaced add_message o2,
          State (this s) w2 (trace s ++ [Call a1 o1; Call a2 o2]))
    else (surfaced add_message o1,
          State (this s) w1 (trace s ++ [Call a1 o1])).
Proof.
  intros a1 a2 E1 E2. subst a1 a2.
  unfold add, try_except, bind at 1, _add_all.
  rewrite (_git_step _ s o1 w1 E1).
  destruct o1 as [rc1 out1|]; simpl; [|reflexivity].
  destruct (rc1 =? 0)%Z; simpl; [|reflexivity].
  unfold _ls_files, bind at 1.
  rewrite (_git_step _ (after s w1 _) o2 w2 E2).
  unfold after; simpl. rewrite <- app_assoc; simpl.
  destruct o2 as [rc2 out2|]; simpl; [|reflexivity].
  destruct (rc2 =? 0)%Z; simpl; [|reflexivity].
  unfold bind, bytes_decode. destruct (decode out2); reflexivity.
Qed.

Lemma commit_push_run (s : state W t) o1 w1 o2 w2 o3 w3 :
  let a1 := git_argv (this s) (getcwd (world s))
              [$"commit"; $"--allow-empty"; $"--message";
               $"Automated commit by submit50"] in
  let a2 := git_argv (this s) (getcwd w1) [$"branch"; $"--show-current"] in
  let a3 := git_argv (this s) (getcwd w2)
              [$"push"; $"--quiet"; $"origin"; branch_of o2] in
  spawn a1 (world s) = (o1, w1) ->
  spawn a2 w1 = (o2, w2) ->
  spawn a3 w2 = (o3, w3) ->
  commit_push s
  = if exit_zero o1
    then if exit_zero o2
         then match decode (stdout_of o2) with
              | Some _ =>
                  (if exit_zero o3 then Ret tt
                   else surfaced submit_message o3,
                   State (this s) w3
                     (trace s ++ [Call a1 o1; Call a2 o2; Call a3 o3]))
              | None =>
                  (Raise UnicodeDecodeError,
                   State (this s) w2 (trace s ++ [Call a1 o1; Call a2 o2]))
              end
         else (surfaced submit_message o2,
               State (this s) w2 (trace s ++ [Call a1 o1; Call a2 o2]))
    else (surfaced submit_message o1,
          State (this s) w1 (trace s ++ [Call a1 o1])).
Proof.
  intros a1 a2 a3 E1 E2 E3. subst a1 a2 a3.
  unfold commit_push, try_except, bind at 1, _commit.
  rewrite (_git_step _ s o1 w1 E1).
  destruct o1 as [rc1 out1|]; simpl; [|reflexivity].
  destruct (rc1 =? 0)%Z; simpl; [|reflexivity].
  unfold bind at 1, _push, bind at 1, _current_branch, bind at 1.
  rewrite (_git_step _ (after s w1 _) o2 w2 E2).
  unfold after; simpl. rewrite <- app_assoc; simpl.
  destruct o2 as [rc2 out2|]; simpl; [|reflexivity].
  destruct (rc2 =? 0)%Z; simpl; [|reflexivity].
  unfold branch_of in *; simpl stdout_of in *.
  unfold bind at 1, bytes_decode.
  destruct (decode out2) as [text|]; simpl; [|reflexivity].
  unfold ret at 1.
  match goal with
  | |- context [_git ?args ?st] => rewrite (_git_step args st o3 w3 E3)
  end.
  unfold after; simpl. rewrite <- app_assoc; simpl.
  destruct o3 as [rc3 out3|]; simpl; [|reflexivity].
  destruct (rc3 =? 0)%Z; reflexivity.
Qed.
End StudentRuns.

(** C10: if the clone invocation inside [clone_bare] does not exit with
    status 0, [clone_bare] raises and leaves the instance, and so its
    [git_dir], as it was ([None] if it was never bound); [git_dir] is
    assigned only once the clone invocation has returned successfully: the
    block then runs in a state that holds the clone in its trace and the
    temporary directory in [git_dir]. *)
Theorem C10_failed_clone_leaves_git_dir
    {W : Type} `{Host W} {A : Type} (body : str -> M W t A) (s : state W t)
    d w1 o w2 :
  mkdtemp (world s) = (d, w1) ->
  spawn (git_argv (this s) (getcwd w1)
           [$"clone"; $"--bare"; $"--quiet";
            os_path_join (git_host (this s)) (repo (this s)); d]) w1
  = (o, w2) ->
  (exit_zero o = false ->
     (exists e, fst (clone_bare body s) = Raise e)
     /\ this (snd (clone_bare body s)) = this s
     /\ git_dir (this (snd (clone_bare body s))) = git_dir (this s)
     /\ (git_dir (this s) = None ->
         git_dir (this (snd (clone_bare body s))) = None))
  /\ (exit_zero o = true ->
      clone_bare body s
      = leave d
          (body d
             (State (with_git_dir (Some d) (this s)) w2
                (trace s
                 ++ [Call (git_argv (this s) (getcwd w1)
                             [$"clone"; $"--bare"; $"--quiet";
                              os_path_join (git_host (this s)) (repo (this s));
                              d]) o]))))
  /\ git_dir (this (snd (clone_bare pass s)))
     = if exit_zero o then Some d else git_dir (this s).
Proof.
  intros Ed Es. split; [|split].
  - intros Hz. rewrite (clone_bare_run body s d w1 o w2 Ed Es), Hz. simpl.
    split; [|split; [reflexivity|split; [reflexivity|auto]]].
    destruct o; simpl; eauto.
  - intros Hz. now rewrite (clone_bare_run body s d w1 o w2 Ed Es), Hz.
  - rewrite (clone_bare_run pass s d w1 o w2 Ed Es).
    destruct (exit_zero o); reflexivity.
Qed.

(** A never-bound instance whose bare clone exits with status 128. *)
Lemma C10_witness :
  (exists e, fst (clone_bare pass (Scenario.session [Scripted.failed]))
             = Raise e)
  /\ git_dir (this (snd (clone_bare pass (Scenario.session [Scripted.failed]))))
     = None.
Proof.
  epose proof (C10_failed_clone_leaves_git_dir pass
                 (Scenario.session [Scripted.failed]) _ _ _ _
                 eq_refl eq_refl) as [Hfail _].
  destruct (Hfail eq_refl) as (He & _ & _ & Hnone).
  split; [exact He | apply Hnone; reflexivity].
Defined.

(** ** Commit and push *)




(** ** Staging *)

Lemma str_leb_total (a b : str) : str_leb a b = true \/ str_leb b a = true.
Proof.
  revert b. induction a as [|x a IH]; intros [|y b]; simpl; auto.
  destruct (N.ltb_spec x y) as [Hxy|Hxy]; simpl; auto.
  destruct (N.ltb_spec y x) as [Hyx|Hyx]; simpl; auto.
  assert (x = y) as -> by lia. rewrite N.eqb_refl; simpl. apply IH.
Qed.

Lemma str_leb_trans (a b c : str) :
  str_leb a b = true -> str_leb b c = true -> str_leb a c = true.
Proof.
  revert b c. induction a as [|x a IH]; intros [|y b] [|z c]; simpl;
    try reflexivity; try discriminate.
  intros Hab Hbc.
  apply orb_true_iff in Hab as [Hab|Hab];
    apply orb_true_iff in Hbc as [Hbc|Hbc];
    repeat match goal with
           | Hyp : (_ <? _) = true |- _ => apply N.ltb_lt in Hyp
           | Hyp : _ && _ = true |- _ =>
               apply andb_true_iff in Hyp as [?Heq ?Hle]
           | Hyp : (_ =? _) = true |- _ => apply N.eqb_eq in Hyp; subst
           end;
    apply orb_true_iff.
  - left. apply N.ltb_lt. lia.
  - left. now apply N.ltb_lt.
  - left. now apply N.ltb_lt.
  - right. rewrite N.eqb_refl; simpl. eapply IH; eassumption.
Qed.

#[global] Instance str_le_total : Total str_le.
Proof. intros a b. apply str_leb_total. Qed.

#[global] Instance str_le_trans : Transitive str_le.
Proof. intros a b c. apply str_leb_trans. Qed.

Lemma split_from_app (tok n rest : str) :
  forallb (fun c => negb (isspace c)) n = true ->
  split_from tok (n ++ rest) = split_from (tok ++ n) rest.
Proof.
  revert tok. induction n as [|c n IH]; intros tok Hn; simpl.
  - now rewrite app_nil_r.
  - simpl in Hn. apply andb_true_iff in Hn as [Hc Hn].
    apply negb_true_iff in Hc. rewrite Hc, IH by assumption.
    now rewrite <- app_assoc.
Qed.

Lemma split_listing (names : list str) :
  Forall plain names -> split (listing names) = names.
Proof.
  unfold split, listing. induction 1 as [|n names [Hne Hws] _ IH]; simpl.
  - reflexivity.
  - rewrite <- app_assoc, split_from_app by assumption. simpl.
    destruct n as [|c n]; [contradiction|]. simpl. now rewrite IH.
Qed.

(** C5: git tracks the single path [my file.txt] and lists it; [add]
    returns the two strings [file.txt] and [my], which is not a
    permutation of the tracked paths: the path is lost and two strings
    that name no file are added. *)
Theorem C5_path_with_space_is_split :
  let out := blit "my file.txt" ++ [x0a] in
  let s := Scenario.session [Scripted.ok []; Scripted.ok out] in
  decode out = Some (listing [$"my file.txt"])
  /\ fst (add s) = Ret [$"file.txt"; $"my"]
  /\ ~ Permutation [$"file.txt"; $"my"] [$"my file.txt"]
  /\ ~ In $"my file.txt" [$"file.txt"; $"my"].
Proof.
  split; [vm_compute; reflexivity|].
  split; [vm_compute; reflexivity|].
  split.
  - intros Hp. apply Permutation_length in Hp. discriminate.
  - vm_compute. intuition discriminate.
Qed.

(** ** The bound working directory *)

Section Handle.
Context {W : Type} `{Host W}.

Lemma add_calls (s : state W t) :
  this (snd (add s)) = this s
  /\ exists new,
       trace (snd (add s)) = trace s ++ new
       /\ Forall (started_by (this s)) new.
Proof.
  destruct (spawn (git_argv (this s) (getcwd (world s)) [$"add"; $"--all"])
                  (world s)) as [o1 w1] eqn:E1.
  destruct (spawn (git_argv (this s) (getcwd w1) [$"ls-files"]) w1)
    as [o2 w2] eqn:E2.
  rewrite (add_run s o1 w1 o2 w2 E1 E2).
  destruct (exit_zero o1); simpl; (split; [reflexivity|]);
    eexists; (split; [reflexivity|]);
    repeat constructor; unfold started_by; simpl; eauto.
Qed.

Lemma commit_push_calls (s : state W t) :
  this (snd (commit_push s)) = this s
  /\ exists new,
       trace (snd (commit_push s)) = trace s ++ new
       /\ Forall (started_by (this s)) new.
Proof.
  destruct (spawn (git_argv (this s) (getcwd (world s))
                     [$"commit"; $"--allow-empty"; $"--message";
                      $"Automated commit by submit50"]) (world s))
    as [o1 w1] eqn:E1.
  destruct (spawn (git_argv (this s) (getcwd w1)
                     [$"branch"; $"--show-current"]) w1)
    as [o2 w2] eqn:E2.
  destruct (spawn (git_argv (this s) (getcwd w2)
                     [$"push"; $"--quiet"; $"origin"; branch_of o2]) w2)
    as [o3 w3] eqn:E3.
  rewrite (commit_push_run s o1 w1 o2 w2 o3 w3 E1 E2 E3).
  destruct (exit_zero o1); [destruct (exit_zero o2);
                            [destruct (decode (stdout_of o2))|]|];
    simpl; (split; [reflexivity|]);
    eexists; (split; [reflexivity|]);
    repeat constructor; unfold started_by; simpl; eauto.
Qed.
End Handle.

(** C9, refuted as stated: two bare clones in a row on one instance assign
    [git_dir] twice, and [add] on an instance that was never bound runs
    git without [--git-dir] and returns. *)
Lemma C9_counterexample :
  let s0 := Scenario.session [Scripted.ok []; Scripted.ok []] in
  let s1 := snd (clone_bare pass s0) in
  let s2 := snd (clone_bare pass s1) in
  (git_dir (this s0) = None
   /\ git_dir (this s1) = Some $"/tmp/tmp1"
   /\ git_dir (this s2) = Some $"/tmp/tmp2")
  /\ fst (add s0) = Ret []
  /\ map argv (trace (snd (add s0)))
     = [[$"git"; $"--work-tree"; $"/home/alice/pset";
         $"-c"; $"user.name=alice";
         $"-c"; $"user.email=alice@users.noreply.github.com";
         $"-c"; $"credential.helper=cache"; $"add"; $"--all"];
        [$"git"; $"--work-tree"; $"/home/alice/pset";
         $"-c"; $"user.name=alice";
         $"-c"; $"user.email=alice@users.noreply.github.com";
         $"-c"; $"credential.helper=cache"; $"ls-files"]].
Proof.
  repeat split; vm_compute; reflexivity.
Qed.

(** C9, amended: every bare clone that exits with status 0 assigns the
    fresh temporary directory to [git_dir], also over an earlier binding,
    and a clone that does not exit with status 0 leaves [git_dir] as it
    was; [add] and [commit_push] leave the instance unchanged and start
    every child process through [_git], which passes [--git-dir] with the
    bound directory when [git_dir] is a non-empty path and omits the
    option when [git_dir] is [None]. *)
Theorem C9_git_dir_binding
    {W : Type} `{Host W} (s : state W t) d w1 o w2 :
  mkdtemp (world s) = (d, w1) ->
  spawn (git_argv (this s) (getcwd w1)
           [$"clone"; $"--bare"; $"--quiet";
            os_path_join (git_host (this s)) (repo (this s)); d]) w1
  = (o, w2) ->
  git_dir (this (snd (clone_bare pass s)))
  = (if exit_zero o then Some d else git_dir (this s))
  /\ (forall s' : state W t,
        this (snd (add s')) = this s'
        /\ this (snd (commit_push s')) = this s'
        /\ (exists new,
              trace (snd (add s')) = trace s' ++ new
              /\ Forall (started_by (this s')) new)
        /\ (exists new,
              trace (snd (commit_push s')) = trace s' ++ new
              /\ Forall (started_by (this s')) new))
  /\ (forall (self : t) (c : N) (p cwd : str) (args : list str),
        git_dir self = Some (c :: p) ->
        git_argv self cwd args
        = [$"git"; $"--git-dir"; c :: p; $"--work-tree"; cwd]
          ++ configs self ++ args)
  /\ (forall (self : t) (cwd : str) (args : list str),
        git_dir self = None ->
        git_argv self cwd args
        = [$"git"; $"--work-tree"; cwd] ++ configs self ++ args).
Proof.
  intros Ed Es. split; [|split; [|split]].
  - rewrite (clone_bare_run pass s d w1 o w2 Ed Es).
    destruct (exit_zero o); reflexivity.
  - intros s'.
    destruct (add_calls s') as [Ha Hta].
    destruct (commit_push_calls s') as [Hc Htc]. auto.
  - intros self c p cwd args Hd. unfold git_argv, git_dir_args.
    now rewrite Hd.
  - intros self cwd args Hd. unfold git_argv, git_dir_args.
    now rewrite Hd.
Qed.

(** A successful bare clone on an instance already bound to [/tmp/old]. *)
Lemma C9_witness :
  let rebound := with_git_dir (Some $"/tmp/old") Scenario.alice in
  let s := State rebound (Scripted.start [Scripted.ok []]) [] in
  git_dir (this (snd (clone_bare pass s))) = Some $"/tmp/tmp1".
Proof.
  intros rebound s.
  epose proof (C9_git_dir_binding s _ _ _ _ eq_refl eq_refl) as [Hbind _].
  exact Hbind.
Defined.

(** ** Which failures are caught *)

Section Catching.
Context {W : Type} `{Host W}.

Lemma template_clone_catches (g : state W GitClient.t) :
  catches_exit_status
    ($"Failed to clone " ++ [DQUOTE]
     ++ os_path_join (GitClient.git_host (this g)) (GitClient.repo (this g))
     ++ [DQUOTE] ++ $".")
    (AssignmentTemplateGitClient.clone pass) g.
Proof.
  unfold catches_exit_status.
  destruct (mkdtemp (world g)) as [d w1] eqn:Ed.
  destruct (spawn [$"git"; $"clone"; $"--depth"; $"1"; $"--quiet";
                   os_path_join (GitClient.git_host (this g))
                                (GitClient.repo (this g)); d] w1)
    as [o w2] eqn:Es.
  rewrite (template_clone_run pass g d w1 o w2 Ed Es).
  outcome_cases o; settle_catch.
Qed.

Lemma clone_bare_catches (s : state W t) :
  catches_exit_status
    (clone_bare_message (os_path_join (git_host (this s)) (repo (this s))))
    (clone_bare pass) s.
Proof.
  unfold catches_exit_status.
  destruct (mkdtemp (world s)) as [d w1] eqn:Ed.
  destruct (spawn (git_argv (this s) (getcwd w1)
                     [$"clone"; $"--bare"; $"--quiet";
                      os_path_join (git_host (this s)) (repo (this s)); d])
                  w1) as [o w2] eqn:Es.
  rewrite (clone_bare_run pass s d w1 o w2 Ed Es).
  outcome_cases o; settle_catch.
Qed.

Lemma add_catches (s : state W t) :
  catches_exit_status add_message add s.
Proof.
  unfold catches_exit_status.
  destruct (spawn (git_argv (this s) (getcwd (world s)) [$"add"; $"--all"])
                  (world s)) as [o1 w1] eqn:E1.
  destruct (spawn (git_argv (this s) (getcwd w1) [$"ls-files"]) w1)
    as [o2 w2] eqn:E2.
  rewrite (add_run s o1 w1 o2 w2 E1 E2).
  outcome_cases o1; [outcome_cases o2; [destruct (decode out0)| |]| |];
    settle_catch.
Qed.

Lemma commit_push_catches (s : state W t) :
  catches_exit_status submit_message commit_push s.
Proof.
  unfold catches_exit_status.
  destruct (spawn (git_argv (this s) (getcwd (world s))
                     [$"commit"; $"--allow-empty"; $"--message";
                      $"Automated commit by submit50"]) (world s))
    as [o1 w1] eqn:E1.
  destruct (spawn (git_argv (this s) (getcwd w1)
                     [$"branch"; $"--show-current"]) w1)
    as [o2 w2] eqn:E2.
  destruct (spawn (git_argv (this s) (getcwd w2)
                     [$"push"; $"--quiet"; $"origin"; branch_of o2]) w2)
    as [o3 w3] eqn:E3.
  rewrite (commit_push_run s o1 w1 o2 w2 o3 w3 E1 E2 E3).
  clear E1 E2 E3.
  outcome_cases o1;
    [outcome_cases o2;
     [destruct (decode out0); [outcome_cases o3|]| |]| |];
    settle_catch.
Qed.

Lemma assert_git_installed_catches {O} (s : state W O) :
  catches_missing_executable
    $"It looks like git is not installed. Please install git then try again."
    assert_git_installed s.
Proof.
  unfold catches_missing_executable, assert_git_installed, try_except,
    bind, git, check_output.
  destruct (spawn [$"git"; $"--version"] (world s)) as [o w] eqn:E.
  outcome_cases o; settle_catch.
Qed.
End Catching.

(** C4, refuted as stated: where git is missing, the template clone, the
    bare clone, [add] and [commit_push] raise the raw [FileNotFoundError];
    where [git --version] exits with status 128, [assert_git_installed]
    raises the raw [CalledProcessError]. *)
Lemma C4_counterexample :
  fst (AssignmentTemplateGitClient.clone pass
         (State (GitClient.Build $"git@github.com:" $"org/repo" None)
                (Scripted.start []) []))
  = Raise FileNotFoundError
  /\ fst (clone_bare pass (Scenario.session [])) = Raise FileNotFoundError
  /\ fst (add (Scenario.session [])) = Raise FileNotFoundError
  /\ fst (commit_push (Scenario.session [])) = Raise FileNotFoundError
  /\ fst (assert_git_installed (Scenario.boot [Scripted.failed]))
     = Raise (CalledProcessError 128).
Proof. repeat split. Qed.

(** C4, amended: the template clone, the bare clone, [add] and
    [commit_push] catch the non-zero exit status of every child process
    they start and raise [RuntimeError] with their own message instead, so
    that no [CalledProcessError] leaves them, while a missing executable
    leaves them as [FileNotFoundError]; [assert_git_installed] catches the
    missing executable and raises [RuntimeError] instead, while a non-zero
    exit status of [git --version] leaves it as [CalledProcessError]. *)
Theorem C4_caught_failures
    {W : Type} `{Host W} {O : Type}
    (g : state W GitClient.t) (s : state W t) (u : state W O) :
  catches_exit_status
    ($"Failed to clone " ++ [DQUOTE]
     ++ os_path_join (GitClient.git_host (this g)) (GitClient.repo (this g))
     ++ [DQUOTE] ++ $".")
    (AssignmentTemplateGitClient.clone pass) g
  /\ catches_exit_status
       ($"Failed to clone " ++ [DQUOTE]
        ++ os_path_join (git_host (this s)) (repo (this s))
        ++ [DQUOTE] ++ $"." ++ [LF]
        ++ $"Please make sure you accepted the assignment invite on the problem set page.")
       (clone_bare pass) s
  /\ catches_exit_status $"Failed to ready files for submission." add s
  /\ catches_exit_status $"Failed to submit." commit_push s
  /\ catches_missing_executable
       $"It looks like git is not installed. Please install git then try again."
       assert_git_installed u.
Proof.
  split; [apply template_clone_catches|].
  split; [apply clone_bare_catches|].
  split; [apply add_catches|].
  split; [apply commit_push_catches|apply assert_git_installed_catches].
Qed.

(** * Further properties *)

(** ** The template clone and its block *)

(** X1: a template clone that exits non-zero raises [RuntimeError] with
    [Failed to clone "<remote>".], one that finds no git raises
    [FileNotFoundError]; in both cases the block does not run and the
    temporary directory is removed.  After a clone that exits with status 0
    the block runs on the fresh directory, its result or exception is
    passed on as it is, and the directory is removed afterwards. *)
Theorem X1_template_clone_block
    {W : Type} `{Host W} {A : Type} (body : str -> M W GitClient.t A)
    (s : state W GitClient.t) d w1 o w2 :
  let remote :=
    os_path_join (GitClient.git_host (this s)) (GitClient.repo (this s)) in
  let c := Call [$"git"; $"clone"; $"--depth"; $"1"; $"--quiet"; remote; d] o in
  mkdtemp (world s) = (d, w1) ->
  spawn (argv c) w1 = (o, w2) ->
  (exit_nonzero o = true ->
     AssignmentTemplateGitClient.clone body s
     = (Raise (RuntimeError
                 ($"Failed to clone " ++ [DQUOTE] ++ remote ++ [DQUOTE] ++ $".")),
        State (this s) (rmtree d w2) (trace s ++ [c])))
  /\ (missing o = true ->
      AssignmentTemplateGitClient.clone body s
      = (Raise FileNotFoundError,
         State (this s) (rmtree d w2) (trace s ++ [c])))
  /\ (exit_zero o = true ->
      let r := body d (State (this s) w2 (trace s ++ [c])) in
      AssignmentTemplateGitClient.clone body s
      = (fst r,
         State (this (snd r)) (rmtree d (world (snd r))) (trace (snd r)))).
Proof.
  intros remote c Ed Es. subst c remote. simpl argv in Es.
  rewrite (template_clone_run body s d w1 o w2 Ed Es).
  split; [|split]; intros Ho.
  - destruct o as [rc out|]; simpl in *; [|discriminate].
    destruct (rc =? 0)%Z; [discriminate|reflexivity].
  - destruct o as [rc out|]; simpl in *; [discriminate|reflexivity].
  - rewrite Ho. reflexivity.
Qed.

(** A template clone that exits with status 128. *)
Lemma X1_witness :
  fst (AssignmentTemplateGitClient.clone pass
         (State (GitClient.Build $"git@github.com:" $"org/repo" None)
                (Scripted.start [Scripted.failed]) []))
  = Raise (RuntimeError
             ($"Failed to clone " ++ [DQUOTE] ++ $"git@github.com:/org/repo"
              ++ [DQUOTE] ++ $".")).
Proof.
  epose proof (X1_template_clone_block pass
                 (State (GitClient.Build $"git@github.com:" $"org/repo" None)
                        (Scripted.start [Scripted.failed]) [])
                 _ _ _ _ eq_refl eq_refl) as [Hfail _].
  rewrite (Hfail eq_refl). reflexivity.
Defined.

(** ** The bare clone and what follows it *)

(** X2: [clone_bare] does not reset [git_dir] when its block is left: after
    a successful clone and an empty block the temporary directory has been
    removed, [git_dir] still names it, and a later [add] on the instance
    passes [--git-dir] with that removed directory to every git it
    starts. *)
Theorem X2_git_dir_outlives_directory
    {W : Type} `{Host W} (s : state W t) d w1 o w2 :
  mkdtemp (world s) = (d, w1) ->
  spawn (git_argv (this s) (getcwd w1)
           [$"clone"; $"--bare"; $"--quiet";
            os_path_join (git_host (this s)) (repo (this s)); d]) w1
  = (o, w2) ->
  exit_zero o = true ->
  d <> [] ->
  let s' := snd (clone_bare pass s) in
  world s' = rmtree d w2
  /\ git_dir (this s') = Some d
  /\ exists new,
       trace (snd (add s')) = trace s' ++ new
       /\ Forall (fun c => exists cwd args,
                    argv c = [$"git"; $"--git-dir"; d; $"--work-tree"; cwd]
                             ++ configs (this s) ++ args) new.
Proof.
  intros Ed Es Hz Hd s'.
  assert (Hs' : s' = State (with_git_dir (Some d) (this s)) (rmtree d w2)
                       (trace s ++ [Call (git_argv (this s) (getcwd w1)
                          [$"clone"; $"--bare"; $"--quiet";
                           os_path_join (git_host (this s)) (repo (this s)); d])
                          o])).
  { subst s'. rewrite (clone_bare_run pass s d w1 o w2 Ed Es), Hz.
    reflexivity. }
  split; [now rewrite Hs'|]. split; [now rewrite Hs'|].
  destruct (add_calls s') as [_ (new & Htr & Hall)].
  exists new. split; [exact Htr|].
  eapply Forall_impl; [exact Hall|].
  intros c (cwd & args & Hc). exists cwd, args. rewrite Hc, Hs'.
  destruct d as [|x d]; [contradiction|]. reflexivity.
Qed.

(** A successful bare clone with an empty block. *)
Lemma X2_witness :
  let s' := snd (clone_bare pass (Scenario.session [Scripted.ok []])) in
  git_dir (this s') = Some $"/tmp/tmp1".
Proof.
  intros s'.
  epose proof (X2_git_dir_outlives_directory
                 (Scenario.session [Scripted.ok []]) _ _ _ _
                 eq_refl eq_refl eq_refl) as Hx.
  destruct Hx as (_ & Hdir & _); [discriminate|exact Hdir].
Defined.

(** X3: staging, committing and pushing inside the block of a bare clone.
    When all six git commands exit with status 0 and the two outputs that
    are read decode, the whole runs clone, add, ls-files, commit, branch and
    push in this order, the five commands after the clone are built for the
    instance bound to the temporary directory, the sorted words of the
    ls-files output are returned, and the directory is removed at the
    end. *)
Theorem X3_submission_inside_bare_clone
    {W : Type} `{Host W} (s : state W t)
    d w1 o0 w2 o1 w3 o2 w4 o3 w5 o4 w6 o5 w7 (text branch_text : str) :
  let self := with_git_dir (Some d) (this s) in
  let c0 := Call (git_argv (this s) (getcwd w1)
                    [$"clone"; $"--bare"; $"--quiet";
                     os_path_join (git_host (this s)) (repo (this s)); d])
                 o0 in
  let c1 := Call (git_argv self (getcwd w2) [$"add"; $"--all"]) o1 in
  let c2 := Call (git_argv self (getcwd w3) [$"ls-files"]) o2 in
  let c3 := Call (git_argv self (getcwd w4)
                    [$"commit"; $"--allow-empty"; $"--message";
                     $"Automated commit by submit50"]) o3 in
  let c4 := Call (git_argv self (getcwd w5) [$"branch"; $"--show-current"])
                 o4 in
  let c5 := Call (git_argv self (getcwd w6)
                    [$"push"; $"--quiet"; $"origin"; rstrip branch_text]) o5 in
  mkdtemp (world s) = (d, w1) ->
  spawn (argv c0) w1 = (o0, w2) ->
  spawn (argv c1) w2 = (o1, w3) ->
  spawn (argv c2) w3 = (o2, w4) ->
  spawn (argv c3) w4 = (o3, w5) ->
  spawn (argv c4) w5 = (o4, w6) ->
  spawn (argv c5) w6 = (o5, w7) ->
  exit_zero o0 = true -> exit_zero o1 = true -> exit_zero o2 = true ->
  exit_zero o3 = true -> exit_zero o4 = true -> exit_zero o5 = true ->
  decode (stdout_of o2) = Some text ->
  decode (stdout_of o4) = Some branch_text ->
  clone_bare stage_and_submit s
  = (Ret (sorted (split text)),
     State self (rmtree d w7) (trace s ++ [c0; c1; c2; c3; c4; c5])).
Proof.
  intros self c0 c1 c2 c3 c4 c5 Ed E0 E1 E2 E3 E4 E5 Z0 Z1 Z2 Z3 Z4 Z5 D2 D4.
  subst c0 c1 c2 c3 c4 c5. simpl argv in *.
  assert (Hb : branch_of o4 = rstrip branch_text)
    by (unfold branch_of; now rewrite D4).
  rewrite <- Hb in *.
  rewrite (clone_bare_run stage_and_submit s d w1 o0 w2 Ed E0), Z0.
  fold self.
  match goal with
  | |- leave d (stage_and_submit d ?st) = _ =>
      assert (Hblock : stage_and_submit d st
                       = (Ret (sorted (split text)),
                          State self w7
                            (trace st
                             ++ [Call (git_argv self (getcwd w2)
                                         [$"add"; $"--all"]) o1;
                                 Call (git_argv self (getcwd w3)
                                         [$"ls-files"]) o2;
                                 Call (git_argv self (getcwd w4)
                                         [$"commit"; $"--allow-empty";
                                          $"--message";
                                          $"Automated commit by submit50"]) o3;
                                 Call (git_argv self (getcwd w5)
                                         [$"branch"; $"--show-current"]) o4;
                                 Call (git_argv self (getcwd w6)
                                         [$"push"; $"--quiet"; $"origin";
                                          branch_of o4]) o5])))
  end.
  { unfold stage_and_submit, bind at 1.
    match goal with
    | |- context [add ?st] =>
        rewrite (add_run st o1 w3 o2 w4 E1 E2), Z1, Z2, D2
    end.
    unfold bind at 1.
    match goal with
    | |- context [commit_push ?st] =>
        rewrite (commit_push_run st o3 w5 o4 w6 o5 w7 E3 E4 E5), Z3, Z4, D4, Z5
    end.
    simpl. rewrite <- !app_assoc. reflexivity. }
  rewrite Hblock. unfold leave; simpl. rewrite <- !app_assoc. reflexivity.
Qed.

(** One tracked file, on branch [main]. *)
Lemma X3_witness :
  let s := Scenario.session
             [Scripted.ok []; Scripted.ok [];
              Scripted.ok (blit "hello.c" ++ [x0a]);
              Scripted.ok []; Scripted.ok (blit "main" ++ [x0a]);
              Scripted.ok []] in
  fst (clone_bare stage_and_submit s) = Ret [$"hello.c"]
  /\ map argv (skipn 5 (trace (snd (clone_bare stage_and_submit s))))
     = [[$"git"; $"--git-dir"; $"/tmp/tmp1";
         $"--work-tree"; $"/home/alice/pset";
         $"-c"; $"user.name=alice";
         $"-c"; $"user.email=alice@users.noreply.github.com";
         $"-c"; $"credential.helper=cache";
         $"push"; $"--quiet"; $"origin"; $"main"]].
Proof.
  intros s.
  epose proof (X3_submission_inside_bare_clone s
                 _ _ _ _ _ _ _ _ _ _ _ _ _ _
                 ($"hello.c" ++ [LF]) ($"main" ++ [LF])
                 eq_refl eq_refl eq_refl eq_refl eq_refl eq_refl eq_refl
                 eq_refl eq_refl eq_refl eq_refl eq_refl eq_refl
                 eq_refl eq_refl) as Hx.
  rewrite Hx. split; reflexivity.
Defined.

(** ** Staging, step by step *)

(** X4: [add] runs [git add --all] first and [git ls-files] second, each
    with the working directory of that moment as work tree.  If the first
    exits non-zero the second is not run; either failure raises
    [RuntimeError] with [Failed to ready files for submission.]. *)
Theorem X4_add_then_ls_files
    {W : Type} `{Host W} (s : state W t) o1 w1 o2 w2 :
  let c1 := Call (git_argv (this s) (getcwd (world s)) [$"add"; $"--all"])
                 o1 in
  let c2 := Call (git_argv (this s) (getcwd w1) [$"ls-files"]) o2 in
  spawn (argv c1) (world s) = (o1, w1) ->
  spawn (argv c2) w1 = (o2, w2) ->
  (exit_nonzero o1 = true ->
     add s
     = (Raise (RuntimeError $"Failed to ready files for submission."),
        State (this s) w1 (trace s ++ [c1])))
  /\ (exit_zero o1 = true -> exit_nonzero o2 = true ->
      add s
      = (Raise (RuntimeError $"Failed to ready files for submission."),
         State (this s) w2 (trace s ++ [c1; c2])))
  /\ (exit_zero o1 = true -> exit_zero o2 = true ->
      snd (add s) = State (this s) w2 (trace s ++ [c1; c2])).
Proof.
  intros c1 c2 E1 E2. subst c1 c2. simpl argv in *.
  rewrite (add_run s o1 w1 o2 w2 E1 E2).
  split; [|split].
  - destruct o1 as [rc out|]; simpl; [|discriminate].
    destruct (rc =? 0)%Z; [discriminate|reflexivity].
  - intros ->. destruct o2 as [rc out|]; simpl; [|discriminate].
    destruct (rc =? 0)%Z; [discriminate|reflexivity].
  - intros -> ->. reflexivity.
Qed.

(** [git add --all] exits with status 128. *)
Lemma X4_witness :
  let s := Scenario.session [Scripted.failed; Scripted.ok []] in
  fst (add s) = Raise (RuntimeError $"Failed to ready files for submission.")
  /\ length (trace (snd (add s))) = 1%nat.
Proof.
  intros s.
  epose proof (X4_add_then_ls_files s _ _ _ _ eq_refl eq_refl) as [Hfail _].
  rewrite (Hfail eq_refl). split; reflexivity.
Defined.

(** X5: when both commands exit with status 0 but the output of
    [git ls-files] is not valid UTF-8, [add] raises [UnicodeDecodeError]:
    the except clause does not catch it, and the files stay staged. *)
Theorem X5_add_undecodable_listing
    {W : Type} `{Host W} (s : state W t) o1 w1 o2 w2 :
  let c1 := Call (git_argv (this s) (getcwd (world s)) [$"add"; $"--all"])
                 o1 in
  let c2 := Call (git_argv (this s) (getcwd w1) [$"ls-files"]) o2 in
  spawn (argv c1) (world s) = (o1, w1) ->
  spawn (argv c2) w1 = (o2, w2) ->
  exit_zero o1 = true ->
  exit_zero o2 = true ->
  decode (stdout_of o2) = None ->
  add s = (Raise UnicodeDecodeError, State (this s) w2 (trace s ++ [c1; c2])).
Proof.
  intros c1 c2 E1 E2 Z1 Z2 Hd. subst c1 c2. simpl argv in *.
  now rewrite (add_run s o1 w1 o2 w2 E1 E2), Z1, Z2, Hd.
Qed.

(** A tracked path printed in Latin-1: the byte [e9] alone. *)
Lemma X5_witness :
  fst (add (Scenario.session
              [Scripted.ok []; Scripted.ok (blit "caf" ++ [xe9; x0a])]))
  = Raise UnicodeDecodeError.
Proof.
  epose proof (X5_add_undecodable_listing
                 (Scenario.session
                    [Scripted.ok []; Scripted.ok (blit "caf" ++ [xe9; x0a])])
                 _ _ _ _ eq_refl eq_refl eq_refl eq_refl eq_refl) as Hx.
  rewrite Hx. reflexivity.
Defined.

(** X6: when the commit and the branch query exit with status 0 but the
    printed branch name is not valid UTF-8, [commit_push] raises
    [UnicodeDecodeError]; the commit has been made and [git push] is never
    started. *)
Theorem X6_commit_push_undecodable_branch
    {W : Type} `{Host W} (s : state W t) o1 w1 o2 w2 :
  let c1 := Call (git_argv (this s) (getcwd (world s))
                    [$"commit"; $"--allow-empty"; $"--message";
                     $"Automated commit by submit50"]) o1 in
  let c2 := Call (git_argv (this s) (getcwd w1)
                    [$"branch"; $"--show-current"]) o2 in
  spawn (argv c1) (world s) = (o1, w1) ->
  spawn (argv c2) w1 = (o2, w2) ->
  exit_zero o1 = true ->
  exit_zero o2 = true ->
  decode (stdout_of o2) = None ->
  commit_push s
  = (Raise UnicodeDecodeError, State (this s) w2 (trace s ++ [c1; c2])).
Proof.
  intros c1 c2 E1 E2 Z1 Z2 Hd. subst c1 c2. simpl argv in *.
  destruct (spawn (git_argv (this s) (getcwd w2)
                     [$"push"; $"--quiet"; $"origin"; branch_of o2]) w2)
    as [o3 w3] eqn:E3.
  now rewrite (commit_push_run s o1 w1 o2 w2 o3 w3 E1 E2 E3), Z1, Z2, Hd.
Qed.

(** A branch name printed in Latin-1. *)
Lemma X6_witness :
  let s := Scenario.session
             [Scripted.ok []; Scripted.ok (blit "caf" ++ [xe9; x0a]);
              Scripted.ok []] in
  fst (commit_push s) = Raise UnicodeDecodeError
  /\ length (trace (snd (commit_push s))) = 2%nat.
Proof.
  intros s.
  epose proof (X6_commit_push_undecodable_branch s _ _ _ _
                 eq_refl eq_refl eq_refl eq_refl eq_refl) as Hx.
  rewrite Hx. split; reflexivity.
Defined.

(** ** What [add] returns *)

Lemma split_from_plain (s tok : str) :
  forallb (fun c => negb (isspace c)) tok = true ->
  Forall plain (split_from tok s).
Proof.
  revert tok. induction s as [|c s IH]; intros tok Htok; simpl.
  - destruct tok as [|x tok]; constructor; [|constructor].
    split; [discriminate|exact Htok].
  - destruct (isspace c) eqn:Hc.
    + destruct tok as [|x tok]; [now apply IH|].
      constructor; [split; [discriminate|exact Htok]|now apply IH].
    + apply IH. rewrite forallb_app, Htok; simpl. now rewrite Hc.
Qed.

Lemma split_blank (s : str) : forallb isspace s = true -> split s = [].
Proof.
  unfold split. induction s as [|c s IH]; simpl; [reflexivity|].
  intros Hs. apply andb_true_iff in Hs as [Hc Hs]. rewrite Hc. now apply IH.
Qed.

Lemma utf8_decode_ascii (l : list N) :
  forallb (fun x => x <? 128) l = true -> utf8_decode l = Some l.
Proof.
  induction l as [|x l IH]; simpl; [reflexivity|].
  intros Hl. apply andb_true_iff in Hl as [Hx Hl].
  rewrite Hx, IH by assumption. reflexivity.
Qed.

Lemma decode_ascii (b : bytes) :
  is_ascii b = true -> decode b = Some (map Byte.to_N b).
Proof.
  intros Hb. unfold decode. apply utf8_decode_ascii.
  unfold is_ascii in Hb. induction b as [|x b IH]; simpl in *; [reflexivity|].
  apply andb_true_iff in Hb as [Hx Hb]. now rewrite Hx, IH.
Qed.

Lemma add_returns_sorted_split {W : Type} `{Host W} (s : state W t) files :
  fst (add s) = Ret files ->
  exists text, files = sorted (split text).
Proof.
  destruct (spawn (git_argv (this s) (getcwd (world s)) [$"add"; $"--all"])
                  (world s)) as [o1 w1] eqn:E1.
  destruct (spawn (git_argv (this s) (getcwd w1) [$"ls-files"]) w1)
    as [o2 w2] eqn:E2.
  rewrite (add_run s o1 w1 o2 w2 E1 E2).
  destruct (exit_zero o1); [|destruct o1; discriminate].
  destruct (exit_zero o2); simpl; [|destruct o2; discriminate].
  destruct (decode (stdout_of o2)) as [text|]; [|discriminate].
  intros [= <-]. eauto.
Qed.

(** X7: whatever git prints, every path [add] returns is a non-empty
    string without whitespace, and the returned list is in ascending
    order. *)
Theorem X7_add_returns_plain_sorted_paths
    {W : Type} `{Host W} (s : state W t) (files : list str) :
  fst (add s) = Ret files ->
  Forall plain files /\ StronglySorted str_le files.
Proof.
  intros Hrun. apply add_returns_sorted_split in Hrun as [text ->].
  split.
  - unfold sorted. rewrite merge_sort_Permutation.
    now apply split_from_plain.
  - apply StronglySorted_merge_sort; apply _.
Qed.

(** A listing with a path that contains a space. *)
Lemma X7_witness :
  Forall plain [$"file.txt"; $"my"].
Proof.
  exact (proj1 (X7_add_returns_plain_sorted_paths
                  (Scenario.session
                     [Scripted.ok [];
                      Scripted.ok (blit "my file.txt" ++ [x0a])])
                  [$"file.txt"; $"my"] eq_refl)).
Defined.

(** X10: when both commands exit with status 0 and [git ls-files] prints
    ASCII only, [add] returns a list: decoding cannot fail. *)
Theorem X10_add_returns_on_ascii_listing
    {W : Type} `{Host W} (s : state W t) o1 w1 o2 w2 :
  spawn (git_argv (this s) (getcwd (world s)) [$"add"; $"--all"]) (world s)
  = (o1, w1) ->
  spawn (git_argv (this s) (getcwd w1) [$"ls-files"]) w1 = (o2, w2) ->
  exit_zero o1 = true ->
  exit_zero o2 = true ->
  is_ascii (stdout_of o2) = true ->
  fst (add s) = Ret (sorted (split (map Byte.to_N (stdout_of o2)))).
Proof.
  intros E1 E2 Z1 Z2 Ha.
  now rewrite (add_run s o1 w1 o2 w2 E1 E2), Z1, Z2, (decode_ascii _ Ha).
Qed.

(** Two ASCII paths. *)
Lemma X10_witness :
  fst (add (Scenario.session
              [Scripted.ok [];
               Scripted.ok (blit "b.c" ++ [x0a] ++ blit "a.c" ++ [x0a])]))
  = Ret [$"a.c"; $"b.c"].
Proof.
  epose proof (X10_add_returns_on_ascii_listing
                 (Scenario.session
                    [Scripted.ok [];
                     Scripted.ok (blit "b.c" ++ [x0a] ++ blit "a.c" ++ [x0a])])
                 _ _ _ _ eq_refl eq_refl eq_refl eq_refl eq_refl) as Hx.
  rewrite Hx. reflexivity.
Defined.

(** X11: when both commands exit with status 0 and [git ls-files] prints
    nothing, or whitespace only, [add] returns the empty list. *)
Theorem X11_add_returns_nothing_for_blank_listing
    {W : Type} `{Host W} (s : state W t) o1 w1 o2 w2 (text : str) :
  spawn (git_argv (this s) (getcwd (world s)) [$"add"; $"--all"]) (world s)
  = (o1, w1) ->
  spawn (git_argv (this s) (getcwd w1) [$"ls-files"]) w1 = (o2, w2) ->
  exit_zero o1 = true ->
  exit_zero o2 = true ->
  decode (stdout_of o2) = Some text ->
  forallb isspace text = true ->
  fst (add s) = Ret [].
Proof.
  intros E1 E2 Z1 Z2 Hd Hblank.
  rewrite (add_run s o1 w1 o2 w2 E1 E2), Z1, Z2, Hd. simpl.
  now rewrite (split_blank _ Hblank).
Qed.

(** No tracked file: [git ls-files] prints nothing. *)
Lemma X11_witness :
  fst (add (Scenario.session [Scripted.ok []; Scripted.ok []])) = Ret [].
Proof.
  exact (X11_add_returns_nothing_for_blank_listing
           (Scenario.session [Scripted.ok []; Scripted.ok []])
           _ _ _ _ [] eq_refl eq_refl eq_refl eq_refl eq_refl eq_refl).
Defined.

Lemma str_leb_antisym (a b : str) :
  str_leb a b = true -> str_leb b a = true -> a = b.
Proof.
  revert b. induction a as [|x a IH]; intros [|y b]; simpl;
    try reflexivity; try discriminate.
  intros Hab Hba.
  apply orb_true_iff in Hab as [Hab|Hab];
    apply orb_true_iff in Hba as [Hba|Hba];
    repeat match goal with
           | Hyp : (_ <? _) = true |- _ => apply N.ltb_lt in Hyp
           | Hyp : _ && _ = true |- _ =>
               apply andb_true_iff in Hyp as [?Heq ?Hle]
           | Hyp : (_ =? _) = true |- _ => apply N.eqb_eq in Hyp
           end; try lia.
  subst. f_equal. now apply IH.
Qed.

#[global] Instance str_le_antisym : AntiSymm (=) str_le.
Proof. intros a b. apply str_leb_antisym. Qed.

Lemma sorted_Permutation (l1 l2 : list str) :
  Permutation l1 l2 -> sorted l1 = sorted l2.
Proof.
  intros Hp. unfold sorted.
  apply (StronglySorted_unique str_le);
    try (apply StronglySorted_merge_sort; apply _).
  now rewrite !merge_sort_Permutation.
Qed.

Lemma StronglySorted_strict (l : list str) :
  StronglySorted str_le l -> NoDup l -> StronglySorted str_lt l.
Proof.
  induction 1 as [|x l Hs IH Hall]; intros Hnd; constructor.
  - apply IH. now apply NoDup_cons in Hnd as [_ Hnd].
  - apply NoDup_cons in Hnd as [Hx _].
    apply Forall_forall. intros y Hy. split.
    + rewrite Forall_forall in Hall. now apply Hall.
    + intros ->. now apply Hx.
Qed.

(** X8: what [add] returns depends on the words git lists, not on the
    order in which it lists them: two runs whose listings hold the same
    words, each as often, return the same list. *)
Theorem X8_add_ignores_listing_order
    {W : Type} `{Host W} (s s' : state W t)
    o1 w1 o2 w2 o1' w1' o2' w2' (text text' : str) :
  spawn (git_argv (this s) (getcwd (world s)) [$"add"; $"--all"]) (world s)
  = (o1, w1) ->
  spawn (git_argv (this s) (getcwd w1) [$"ls-files"]) w1 = (o2, w2) ->
  spawn (git_argv (this s') (getcwd (world s')) [$"add"; $"--all"]) (world s')
  = (o1', w1') ->
  spawn (git_argv (this s') (getcwd w1') [$"ls-files"]) w1' = (o2', w2') ->
  exit_zero o1 = true -> exit_zero o2 = true ->
  exit_zero o1' = true -> exit_zero o2' = true ->
  decode (stdout_of o2) = Some text ->
  decode (stdout_of o2') = Some text' ->
  Permutation (split text) (split text') ->
  fst (add s) = fst (add s').
Proof.
  intros E1 E2 E1' E2' Z1 Z2 Z1' Z2' Hd Hd' Hp.
  rewrite (add_run s o1 w1 o2 w2 E1 E2), Z1, Z2, Hd.
  rewrite (add_run s' o1' w1' o2' w2' E1' E2'), Z1', Z2', Hd'. simpl.
  now rewrite (sorted_Permutation _ _ Hp).
Qed.

(** The same two paths, listed in either order. *)
Lemma X8_witness :
  fst (add (Scenario.session
              [Scripted.ok [];
               Scripted.ok (blit "b.c" ++ [x0a] ++ blit "a.c" ++ [x0a])]))
  = fst (add (Scenario.session
                [Scripted.ok [];
                 Scripted.ok (blit "a.c" ++ [x0a] ++ blit "b.c" ++ [x0a])])).
Proof.
  eapply (X8_add_ignores_listing_order _ _ _ _ _ _ _ _ _ _
            (listing [$"b.c"; $"a.c"]) (listing [$"a.c"; $"b.c"]));
    try reflexivity.
  apply perm_swap.
Defined.

(** X9: when the tracked paths are distinct, none of them empty or with
    whitespace in it, and git lists each on a line of its own, [add]
    returns them in strictly ascending order. *)
Theorem X9_add_strictly_ascending
    {W : Type} `{Host W} (s : state W t) o1 w1 o2 w2 (names : list str) :
  spawn (git_argv (this s) (getcwd (world s)) [$"add"; $"--all"]) (world s)
  = (o1, w1) ->
  spawn (git_argv (this s) (getcwd w1) [$"ls-files"]) w1 = (o2, w2) ->
  exit_zero o1 = true ->
  exit_zero o2 = true ->
  decode (stdout_of o2) = Some (listing names) ->
  Forall plain names ->
  NoDup names ->
  exists files,
    fst (add s) = Ret files
    /\ StronglySorted str_lt files
    /\ Permutation files names.
Proof.
  intros E1 E2 Z1 Z2 Hd Hplain Hnd.
  exists (sorted names).
  rewrite (add_run s o1 w1 o2 w2 E1 E2), Z1, Z2, Hd. simpl.
  rewrite (split_listing _ Hplain).
  split; [reflexivity|]. split; [|apply merge_sort_Permutation].
  apply StronglySorted_strict.
  - apply StronglySorted_merge_sort; apply _.
  - unfold sorted. now rewrite merge_sort_Permutation.
Qed.

(** Two distinct paths. *)
Lemma X9_witness :
  exists files,
    fst (add (Scenario.session
                [Scripted.ok [];
                 Scripted.ok (blit "b.c" ++ [x0a] ++ blit "a.c" ++ [x0a])]))
    = Ret files
    /\ StronglySorted str_lt files.
Proof.
  epose proof (X9_add_strictly_ascending
                 (Scenario.session
                    [Scripted.ok [];
                     Scripted.ok (blit "b.c" ++ [x0a] ++ blit "a.c" ++ [x0a])])
                 _ _ _ _ [$"b.c"; $"a.c"]
                 eq_refl eq_refl eq_refl eq_refl eq_refl) as Hx.
  destruct Hx as (files & Hrun & Hsorted & _).
  - repeat constructor; discriminate.
  - apply (bool_decide_unpack _). vm_compute. exact I.
  - exists files. split; assumption.
Defined.

(** ** Construction and the configuration queries *)

Lemma truthy_answer o v : answer o = Ret v -> truthy v = adds_override o.
Proof.
  destruct o as [rc out|]; simpl; [|discriminate].
  destruct (rc =? 0)%Z; intros [= <-]; simpl; [|now destruct out].
  destruct out; reflexivity.
Qed.

Lemma init_run {W : Type} `{Host W} {O : Type} (user repo_arg host_arg : str)
    (s : state W O) :
  __init__ user repo_arg host_arg s
  = bind (_default_configs
            (Build user
               (match getenv $"SUBMIT50_GIT_HOST" (world s) with
                | Some h => h
                | None => host_arg
                end) repo_arg None []))
         (fun c => ret (with_configs c
            (Build user
               (match getenv $"SUBMIT50_GIT_HOST" (world s) with
                | Some h => h
                | None => host_arg
                end) repo_arg None []))) s.
Proof.
  unfold __init__, GitClient.__init__, os_getenv, bind at 1 2, ret at 1.
  destruct (getenv _ (world s)); reflexivity.
Qed.

Lemma _default_configs_cases {W : Type} `{Host W} {O : Type} (self : t)
    (s : state W O) o1 w1 o2 w2 o3 w3 :
  spawn (query $"user.name") (world s) = (o1, w1) ->
  spawn (query $"user.email") w1 = (o2, w2) ->
  spawn (query $"credential.helper") w2 = (o3, w3) ->
  let c1 := Call (query $"user.name") o1 in
  let c2 := Call (query $"user.email") o2 in
  let c3 := Call (query $"credential.helper") o3 in
  _default_configs self s
  = match answer o1 with
    | Raise e => (Raise e, State (this s) w1 (trace s ++ [c1]))
    | Ret v1 =>
        match answer o2 with
        | Raise e => (Raise e, State (this s) w2 (trace s ++ [c1; c2]))
        | Ret v2 =>
            match answer o3 with
            | Raise e =>
                (Raise e, State (this s) w3 (trace s ++ [c1; c2; c3]))
            | Ret v3 =>
                (Ret (override_if v1 (name_override self)
                      ++ override_if v2 (email_override self)
                      ++ override_if v3 helper_override),
                 State (this s) w3 (trace s ++ [c1; c2; c3]))
            end
        end
    end.
Proof.
  intros E1 E2 E3 c1 c2 c3. subst c1 c2 c3.
  destruct (answer o1) as [v1|e1] eqn:A1.
  2:{ unfold _default_configs, user_name_not_configured, bind at 1.
      now rewrite (not_configured_run _ _ _ _ E1), A1. }
  destruct (answer o2) as [v2|e2] eqn:A2.
  2:{ unfold _default_configs, user_name_not_configured,
        user_email_not_configured, bind at 1.
      rewrite (not_configured_run _ _ _ _ E1), A1. unfold bind at 1.
      rewrite (not_configured_run $"user.email" (after s w1 _) o2 w2 E2), A2.
      unfold after; simpl. now rewrite <- app_assoc. }
  destruct (answer o3) as [v3|e3] eqn:A3.
  - exact (_default_configs_run self s _ _ _ _ _ _ _ _ _ E1 E2 E3 A1 A2 A3).
  - unfold _default_configs, user_name_not_configured,
      user_email_not_configured, credential_helper_not_configured, bind at 1.
    rewrite (not_configured_run _ _ _ _ E1), A1. unfold bind at 1.
    rewrite (not_configured_run $"user.email" (after s w1 _) o2 w2 E2), A2.
    unfold bind at 1.
    rewrite (not_configured_run $"credential.helper"
               (after (after s w1 _) w2 _) o3 w3 E3), A3.
    unfold after; simpl. now rewrite <- !app_assoc.
Qed.

(** [_default_configs] leaves the receiver alone and starts at most the
    three queries. *)
Lemma _default_configs_summary {W : Type} `{Host W} {O : Type} (self : t)
    (s : state W O) :
  this (snd (_default_configs self s)) = this s
  /\ exists new,
       trace (snd (_default_configs self s)) = trace s ++ new
       /\ (length new <= 3)%nat
       /\ Forall (fun c => head (argv c) = Some $"git") new.
Proof.
  destruct (spawn (query $"user.name") (world s)) as [o1 w1] eqn:E1.
  destruct (spawn (query $"user.email") w1) as [o2 w2] eqn:E2.
  destruct (spawn (query $"credential.helper") w2) as [o3 w3] eqn:E3.
  rewrite (_default_configs_cases self s o1 w1 o2 w2 o3 w3 E1 E2 E3).
  destruct (answer o1) as [v1|e1];
    [destruct (answer o2) as [v2|e2];
     [destruct (answer o3) as [v3|e3]|]|]; simpl;
    (split; [reflexivity|]);
    eexists; (split; [reflexivity|]);
    (split; [simpl; lia|repeat constructor]).
Qed.

(** X12: when git is installed, the list [_default_configs] returns is
    made of the pairs [-c user.name=<username>],
    [-c user.email=<username>@users.noreply.github.com] and
    [-c credential.helper=cache], in this order, and a pair is left out
    exactly when its query exited with status 0 and printed nothing; the
    list has at most six elements. *)
Theorem X12_overrides_follow_outcomes
    {W : Type} `{Host W} {O : Type} (self : t) (s : state W O)
    o1 w1 o2 w2 o3 w3 :
  spawn (query $"user.name") (world s) = (o1, w1) ->
  spawn (query $"user.email") w1 = (o2, w2) ->
  spawn (query $"credential.helper") w2 = (o3, w3) ->
  missing o1 = false -> missing o2 = false -> missing o3 = false ->
  exists cfg,
    fst (_default_configs self s) = Ret cfg
    /\ cfg
       = (if adds_override o1
          then [$"-c"; $"user.name=" ++ username self] else [])
         ++ (if adds_override o2
             then [$"-c"; $"user.email=" ++ username self
                            ++ $"@users.noreply.github.com"] else [])
         ++ (if adds_override o3
             then [$"-c"; $"credential.helper=cache"] else [])
    /\ (length cfg <= 6)%nat.
Proof.
  intros E1 E2 E3 M1 M2 M3.
  destruct (answer_found _ M1) as [v1 A1].
  destruct (answer_found _ M2) as [v2 A2].
  destruct (answer_found _ M3) as [v3 A3].
  rewrite (_default_configs_run self s _ _ _ _ _ _ _ _ _ E1 E2 E3 A1 A2 A3).
  eexists. split; [reflexivity|]. unfold override_if.
  rewrite (truthy_answer _ _ A1), (truthy_answer _ _ A2),
    (truthy_answer _ _ A3).
  split; [reflexivity|].
  destruct (adds_override o1), (adds_override o2), (adds_override o3);
    simpl; lia.
Qed.

(** user.name is set, user.email prints nothing, credential.helper is
    unset. *)
Lemma X12_witness :
  fst (_default_configs Scenario.alice0
         (Scenario.boot [Scripted.ok (blit "Alice" ++ [x0a]);
                         Scripted.ok []; Scripted.failed]))
  = Ret [$"-c"; $"user.name=alice"; $"-c"; $"credential.helper=cache"].
Proof.
  epose proof (X12_overrides_follow_outcomes Scenario.alice0
                 (Scenario.boot [Scripted.ok (blit "Alice" ++ [x0a]);
                                 Scripted.ok []; Scripted.failed])
                 _ _ _ _ _ _ eq_refl eq_refl eq_refl eq_refl eq_refl eq_refl)
    as (cfg & Hrun & Hcfg & _).
  rewrite Hrun, Hcfg. reflexivity.
Defined.

(** X13: [StudentAssignmentGitClient.__init__] does not guard its
    configuration queries against a missing git: whichever of the three
    queries is the first to find no executable, construction raises
    [FileNotFoundError] at that query and starts no further one. *)
Theorem X13_init_without_git
    {W : Type} `{Host W} {O : Type} (user repo_arg host_arg : str)
    (s : state W O) o1 w1 o2 w2 o3 w3 :
  let c1 := Call (query $"user.name") o1 in
  let c2 := Call (query $"user.email") o2 in
  let c3 := Call (query $"credential.helper") o3 in
  spawn (argv c1) (world s) = (o1, w1) ->
  spawn (argv c2) w1 = (o2, w2) ->
  spawn (argv c3) w2 = (o3, w3) ->
  (missing o1 = true ->
     __init__ user repo_arg host_arg s
     = (Raise FileNotFoundError, State (this s) w1 (trace s ++ [c1])))
  /\ (missing o1 = false -> missing o2 = true ->
      __init__ user repo_arg host_arg s
      = (Raise FileNotFoundError, State (this s) w2 (trace s ++ [c1; c2])))
  /\ (missing o1 = false -> missing o2 = false -> missing o3 = true ->
      __init__ user repo_arg host_arg s
      = (Raise FileNotFoundError,
         State (this s) w3 (trace s ++ [c1; c2; c3]))).
Proof.
  intros c1 c2 c3 E1 E2 E3. subst c1 c2 c3. simpl argv in *.
  rewrite init_run. unfold bind.
  rewrite (_default_configs_cases _ s o1 w1 o2 w2 o3 w3 E1 E2 E3).
  split; [|split].
  - intros M1. destruct o1; [discriminate|reflexivity].
  - intros M1 M2. destruct (answer_found _ M1) as [v1 ->].
    destruct o2; [discriminate|reflexivity].
  - intros M1 M2 M3. destruct (answer_found _ M1) as [v1 ->].
    destruct (answer_found _ M2) as [v2 ->].
    destruct o3; [discriminate|reflexivity].
Qed.

(** Construction on a machine without git. *)
Lemma X13_witness :
  fst (__init__ $"alice" $"org/repo" GitClient.default_git_host
         (Scenario.boot []))
  = Raise FileNotFoundError.
Proof.
  epose proof (X13_init_without_git
                 $"alice" $"org/repo" GitClient.default_git_host
                 (Scenario.boot []) _ _ _ _ _ _ eq_refl eq_refl eq_refl)
    as [Hmiss _].
  rewrite (Hmiss eq_refl). reflexivity.
Defined.

(** ** What is executed *)

Lemma snd_bind_ret {W O A B} (m : M W O A) (f : A -> B) (s : state W O) :
  snd (bind m (fun a => ret (f a)) s) = snd (m s).
Proof. unfold bind, ret. destruct (m s) as [[a|e] s']; reflexivity. Qed.

Section Counting.
Context {W : Type} `{Host W}.

Lemma template_clone_count (g : state W GitClient.t) :
  runs_git_at_most 1 (AssignmentTemplateGitClient.clone pass) g.
Proof.
  unfold runs_git_at_most.
  destruct (mkdtemp (world g)) as [d w1] eqn:Ed.
  destruct (spawn [$"git"; $"clone"; $"--depth"; $"1"; $"--quiet";
                   os_path_join (GitClient.git_host (this g))
                                (GitClient.repo (this g)); d] w1)
    as [o w2] eqn:Es.
  rewrite (template_clone_run pass g d w1 o w2 Ed Es).
  destruct (exit_zero o); simpl; eexists; (split; [reflexivity|]);
    (split; [simpl; lia|repeat constructor]).
Qed.

Lemma clone_bare_count (s : state W t) :
  runs_git_at_most 1 (clone_bare pass) s.
Proof.
  unfold runs_git_at_most.
  destruct (mkdtemp (world s)) as [d w1] eqn:Ed.
  destruct (spawn (git_argv (this s) (getcwd w1)
                     [$"clone"; $"--bare"; $"--quiet";
                      os_path_join (git_host (this s)) (repo (this s)); d])
                  w1) as [o w2] eqn:Es.
  rewrite (clone_bare_run pass s d w1 o w2 Ed Es).
  destruct (exit_zero o); simpl; eexists; (split; [reflexivity|]);
    (split; [simpl; lia|repeat constructor]).
Qed.

Lemma add_count (s : state W t) : runs_git_at_most 2 add s.
Proof.
  unfold runs_git_at_most.
  destruct (spawn (git_argv (this s) (getcwd (world s)) [$"add"; $"--all"])
                  (world s)) as [o1 w1] eqn:E1.
  destruct (spawn (git_argv (this s) (getcwd w1) [$"ls-files"]) w1)
    as [o2 w2] eqn:E2.
  rewrite (add_run s o1 w1 o2 w2 E1 E2).
  destruct (exit_zero o1); simpl; eexists; (split; [reflexivity|]);
    (split; [simpl; lia|repeat constructor]).
Qed.

Lemma commit_push_count (s : state W t) : runs_git_at_most 3 commit_push s.
Proof.
  unfold runs_git_at_most.
  destruct (spawn (git_argv (this s) (getcwd (world s))
                     [$"commit"; $"--allow-empty"; $"--message";
                      $"Automated commit by submit50"]) (world s))
    as [o1 w1] eqn:E1.
  destruct (spawn (git_argv (this s) (getcwd w1)
                     [$"branch"; $"--show-current"]) w1)
    as [o2 w2] eqn:E2.
  destruct (spawn (git_argv (this s) (getcwd w2)
                     [$"push"; $"--quiet"; $"origin"; branch_of o2]) w2)
    as [o3 w3] eqn:E3.
  rewrite (commit_push_run s o1 w1 o2 w2 o3 w3 E1 E2 E3).
  destruct (exit_zero o1); [destruct (exit_zero o2);
                            [destruct (decode (stdout_of o2))|]|];
    simpl; eexists; (split; [reflexivity|]);
    (split; [simpl; lia|repeat constructor]).
Qed.

Lemma assert_git_installed_count {O} (s : state W O) :
  runs_git_at_most 1 assert_git_installed s.
Proof.
  unfold runs_git_at_most, assert_git_installed, try_except, bind, git,
    check_output.
  destruct (spawn [$"git"; $"--version"] (world s)) as [o w] eqn:E.
  destruct o as [rc out|]; simpl; [destruct (rc =? 0)%Z; simpl|];
    eexists; (split; [reflexivity|]);
    (split; [simpl; lia|repeat constructor]).
Qed.

Lemma init_count {O} (user repo_arg host_arg : str) (s : state W O) :
  runs_git_at_most 3 (__init__ user repo_arg host_arg) s.
Proof.
  unfold runs_git_at_most. rewrite init_run, snd_bind_ret.
  now destruct (_default_configs_summary
                  (Build user
                     (match getenv $"SUBMIT50_GIT_HOST" (world s) with
                      | Some h => h
                      | None => host_arg
                      end) repo_arg None []) s) as (_ & Hnew).
Qed.
End Counting.

(** X14: the module starts no program but git and never starts one again
    after it failed: the template clone, the bare clone (each with an empty
    block) and [assert_git_installed] start at most one child process,
    [add] at most two, [commit_push] and the construction of a student
    client at most three, and the first element of every argument vector
    is [git]. *)
Theorem X14_only_git_no_retry
    {W : Type} `{Host W} {O : Type}
    (g : state W GitClient.t) (s : state W t) (u : state W O)
    (user repo_arg host_arg : str) :
  runs_git_at_most 1 (AssignmentTemplateGitClient.clone pass) g
  /\ runs_git_at_most 1 (clone_bare pass) s
  /\ runs_git_at_most 2 add s
  /\ runs_git_at_most 3 commit_push s
  /\ runs_git_at_most 1 assert_git_installed u
  /\ runs_git_at_most 3 (__init__ user repo_arg host_arg) u.
Proof.
  split; [apply template_clone_count|].
  split; [apply clone_bare_count|].
  split; [apply add_count|].
  split; [apply commit_push_count|].
  split; [apply assert_git_installed_count|apply init_count].
Qed.

(** X17: [not_configured] starts exactly [git config --get <key>] and
    leaves the receiver alone; it returns [True] exactly when that query
    exits non-zero and the printed bytes exactly when it exits with status
    0, so it never returns [False]; it raises [FileNotFoundError] exactly
    when the executable is not found. *)
Theorem X17_not_configured_results
    {W : Type} `{Host W} {O : Type} (key : str) (s : state W O) o w :
  spawn [$"git"; $"config"; $"--get"; key] (world s) = (o, w) ->
  snd (not_configured key s)
  = State (this s) w (trace s ++ [Call [$"git"; $"config"; $"--get"; key] o])
  /\ fst (not_configured key s) <> Ret (VBool false)
  /\ (fst (not_configured key s) = Ret (VBool true) <-> exit_nonzero o = true)
  /\ (fst (not_configured key s) = Ret (VBytes (stdout_of o))
      <-> exit_zero o = true)
  /\ (fst (not_configured key s) = Raise FileNotFoundError
      <-> missing o = true).
Proof.
  intros E. change [$"git"; $"config"; $"--get"; key] with (query key) in *.
  rewrite (not_configured_run key s o w E). simpl.
  split; [reflexivity|].
  destruct o as [rc out|]; simpl; [destruct (rc =? 0)%Z; simpl|];
    repeat split; try discriminate; try reflexivity; try congruence.
Qed.

(** A query that exits with status 1: the key is unset. *)
Lemma X17_witness :
  fst (not_configured $"user.name" (Scenario.boot [Exited 1 []]))
  = Ret (VBool true).
Proof.
  epose proof (X17_not_configured_results $"user.name"
                 (Scenario.boot [Exited 1 []]) _ _ eq_refl)
    as (_ & _ & Htrue & _).
  now apply Htrue.
Defined.

(** X18: [assert_git_installed] starts exactly [git --version]; it returns
    exactly when that exits with status 0, and raises [RuntimeError] with
    [It looks like git is not installed. Please install git then try again.]
    exactly when git is missing. *)
Theorem X18_assert_git_installed_results
    {W : Type} `{Host W} {O : Type} (s : state W O) o w :
  spawn [$"git"; $"--version"] (world s) = (o, w) ->
  snd (assert_git_installed s)
  = State (this s) w (trace s ++ [Call [$"git"; $"--version"] o])
  /\ (fst (assert_git_installed s) = Ret tt <-> exit_zero o = true)
  /\ (fst (assert_git_installed s)
      = Raise (RuntimeError
          $"It looks like git is not installed. Please install git then try again.")
      <-> missing o = true).
Proof.
  intros E.
  unfold assert_git_installed, try_except, bind, git, check_output.
  rewrite E.
  destruct o as [rc out|]; simpl; [destruct (rc =? 0)%Z; simpl|];
    repeat split; try discriminate; try reflexivity; try congruence.
Qed.

(** A machine without git. *)
Lemma X18_witness :
  fst (assert_git_installed (Scenario.boot []))
  = Raise (RuntimeError
      $"It looks like git is not installed. Please install git then try again.").
Proof.
  epose proof (X18_assert_git_installed_results (Scenario.boot []) _ _ eq_refl)
    as (_ & _ & Hmissing).
  now apply Hmissing.
Defined.

(** ** The branch that is pushed *)

Lemma rstrip_spec (s : str) :
  exists ws,
    s = rstrip s ++ ws
    /\ forallb isspace ws = true
    /\ forall c, last (rstrip s) = Some c -> isspace c = false.
Proof.
  induction s as [|c s (ws & Hs & Hws & Hlast)]; simpl.
  - exists []. split; [reflexivity|]. split; [reflexivity|]. discriminate.
  - destruct (rstrip s) as [|x r] eqn:Hr.
    + simpl in Hs. subst ws. destruct (isspace c) eqn:Hc.
      * exists (c :: s). simpl. rewrite Hc, Hws.
        split; [reflexivity|]. split; [reflexivity|]. discriminate.
      * exists s. split; [reflexivity|]. split; [exact Hws|].
        intros c' [= <-]. exact Hc.
    + exists ws. split; [now rewrite Hs at 1|]. split; [exact Hws|].
      intros c' Hc'. apply Hlast. exact Hc'.
Qed.

Lemma rstrip_blank (s : str) : forallb isspace s = true -> rstrip s = [].
Proof.
  induction s as [|c s IH]; simpl; [reflexivity|].
  intros Hs. apply andb_true_iff in Hs as [Hc Hs].
  now rewrite (IH Hs), Hc.
Qed.

(** X15: the branch [commit_push] pushes is the text that
    [git branch --show-current] printed without its trailing whitespace:
    the printed text is that branch followed by whitespace only, the
    branch does not end in whitespace, and whitespace at its start or
    inside it is kept. *)
Theorem X15_pushed_branch_is_right_stripped
    {W : Type} `{Host W} (s : state W t) o1 w1 o2 w2 o3 w3 (text : str) :
  let c1 := Call (git_argv (this s) (getcwd (world s))
                    [$"commit"; $"--allow-empty"; $"--message";
                     $"Automated commit by submit50"]) o1 in
  let c2 := Call (git_argv (this s) (getcwd w1)
                    [$"branch"; $"--show-current"]) o2 in
  spawn (argv c1) (world s) = (o1, w1) ->
  spawn (argv c2) w1 = (o2, w2) ->
  spawn (git_argv (this s) (getcwd w2)
           [$"push"; $"--quiet"; $"origin"; branch_of o2]) w2
  = (o3, w3) ->
  exit_zero o1 = true ->
  exit_zero o2 = true ->
  decode (stdout_of o2) = Some text ->
  exists branch ws,
    text = branch ++ ws
    /\ forallb isspace ws = true
    /\ (forall c, last branch = Some c -> isspace c = false)
    /\ trace (snd (commit_push s))
       = trace s
         ++ [c1; c2;
             Call (git_argv (this s) (getcwd w2)
                     [$"push"; $"--quiet"; $"origin"; branch]) o3].
Proof.
  intros c1 c2 E1 E2 E3 Z1 Z2 Hd. subst c1 c2. simpl argv in *.
  destruct (rstrip_spec text) as (ws & Htext & Hws & Hlast).
  exists (rstrip text), ws.
  split; [exact Htext|]. split; [exact Hws|]. split; [exact Hlast|].
  rewrite (commit_push_run s o1 w1 o2 w2 o3 w3 E1 E2 E3), Z1, Z2, Hd.
  unfold branch_of. rewrite Hd. reflexivity.
Qed.

(** A branch name with a space inside, printed with a line feed. *)
Lemma X15_witness :
  let s := Scenario.session
             [Scripted.ok []; Scripted.ok (blit "my branch" ++ [x0a]);
              Scripted.ok []] in
  exists branch ws,
    $"my branch" ++ [LF] = branch ++ ws
    /\ forallb isspace ws = true
    /\ (forall c, last branch = Some c -> isspace c = false).
Proof.
  intros s.
  epose proof (X15_pushed_branch_is_right_stripped s _ _ _ _ _ _
                 ($"my branch" ++ [LF])
                 eq_refl eq_refl eq_refl eq_refl eq_refl eq_refl)
    as (branch & ws & Htext & Hws & Hlast & _).
  exists branch, ws. repeat split; assumption.
Defined.

(** X16: when [git branch --show-current] exits with status 0 and prints
    nothing but whitespace, as it does on a detached HEAD, [commit_push]
    still starts [git push --quiet origin] with the empty string as the
    branch. *)
Theorem X16_push_with_empty_branch
    {W : Type} `{Host W} (s : state W t) o1 w1 o2 w2 o3 w3 (text : str) :
  let c1 := Call (git_argv (this s) (getcwd (world s))
                    [$"commit"; $"--allow-empty"; $"--message";
                     $"Automated commit by submit50"]) o1 in
  let c2 := Call (git_argv (this s) (getcwd w1)
                    [$"branch"; $"--show-current"]) o2 in
  let c3 := Call (git_argv (this s) (getcwd w2)
                    [$"push"; $"--quiet"; $"origin"; []]) o3 in
  spawn (argv c1) (world s) = (o1, w1) ->
  spawn (argv c2) w1 = (o2, w2) ->
  spawn (argv c3) w2 = (o3, w3) ->
  exit_zero o1 = true ->
  exit_zero o2 = true ->
  decode (stdout_of o2) = Some text ->
  forallb isspace text = true ->
  snd (commit_push s) = State (this s) w3 (trace s ++ [c1; c2; c3])
  /\ (exit_zero o3 = true -> fst (commit_push s) = Ret tt).
Proof.
  intros c1 c2 c3 E1 E2 E3 Z1 Z2 Hd Hblank. subst c1 c2 c3. simpl argv in *.
  assert (Hb : branch_of o2 = [])
    by (unfold branch_of; rewrite Hd; now apply rstrip_blank).
  rewrite <- Hb in *.
  rewrite (commit_push_run s o1 w1 o2 w2 o3 w3 E1 E2 E3), Z1, Z2, Hd.
  split; [reflexivity|]. now intros ->.
Qed.

(** A detached HEAD: the branch query prints an empty line. *)
Lemma X16_witness :
  let s := Scenario.session
             [Scripted.ok []; Scripted.ok [x0a]; Scripted.ok []] in
  map argv (skipn 2 (trace (snd (commit_push s))))
  = [[$"git"; $"--work-tree"; $"/home/alice/pset";
      $"-c"; $"user.name=alice";
      $"-c"; $"user.email=alice@users.noreply.github.com";
      $"-c"; $"credential.helper=cache";
      $"push"; $"--quiet"; $"origin"; []]].
Proof.
  intros s.
  epose proof (X16_push_with_empty_branch s _ _ _ _ _ _ [LF]
                 eq_refl eq_refl eq_refl eq_refl eq_refl eq_refl eq_refl)
    as [Hsnd _].
  rewrite Hsnd. reflexivity.
Defined.

(** ** A second bare clone *)

(** X19: [clone_bare] builds its clone command through [_git] like every
    other command: on an instance that is already bound to a directory,
    the clone is started with [--git-dir] naming that earlier directory,
    and only once it has exited with status 0 is [git_dir] set to the new
    one. *)
Theorem X19_second_clone_passes_old_git_dir
    {W : Type} `{Host W} {A : Type} (body : str -> M W t A) (s : state W t)
    (x : N) (old : str) d w1 o w2 :
  git_dir (this s) = Some (x :: old) ->
  mkdtemp (world s) = (d, w1) ->
  let a := [$"git"; $"--git-dir"; x :: old; $"--work-tree"; getcwd w1]
           ++ configs (this s)
           ++ [$"clone"; $"--bare"; $"--quiet";
               os_path_join (git_host (this s)) (repo (this s)); d] in
  spawn a w1 = (o, w2) ->
  (exit_zero o = false ->
     snd (clone_bare body s)
     = State (this s) (rmtree d w2) (trace s ++ [Call a o]))
  /\ (exit_zero o = true ->
      clone_bare body s
      = leave d (body d (State (with_git_dir (Some d) (this s)) w2
                           (trace s ++ [Call a o])))).
Proof.
  intros Hold Ed a Es.
  assert (Ha : a = git_argv (this s) (getcwd w1)
                     [$"clone"; $"--bare"; $"--quiet";
                      os_path_join (git_host (this s)) (repo (this s)); d]).
  { subst a. unfold git_argv, git_dir_args. now rewrite Hold. }
  rewrite Ha in *. clear Ha.
  rewrite (clone_bare_run body s d w1 o w2 Ed Es).
  split; intros ->; reflexivity.
Qed.

(** Two bare clones in a row on one instance. *)
Lemma X19_witness :
  let s1 := snd (clone_bare pass (Scenario.session
                                    [Scripted.ok []; Scripted.ok []])) in
  map argv (skipn 1 (trace (snd (clone_bare pass s1))))
  = [[$"git"; $"--git-dir"; $"/tmp/tmp1";
      $"--work-tree"; $"/home/alice/pset";
      $"-c"; $"user.name=alice";
      $"-c"; $"user.email=alice@users.noreply.github.com";
      $"-c"; $"credential.helper=cache";
      $"clone"; $"--bare"; $"--quiet";
      $"git@github.com:/org/repo"; $"/tmp/tmp2"]].
Proof.
  intros s1.
  epose proof (X19_second_clone_passes_old_git_dir pass s1
                 _ _ _ _ _ _ eq_refl eq_refl eq_refl) as [_ Hok].
  rewrite (Hok eq_refl). reflexivity.
Defined.
